(** * Vollara Products API: a shallow embedding of [main.py]

    The development follows the layout of the Python module: the string
    methods used for slug derivation, the [bson.ObjectId] text form, JSON-like
    values and dictionaries, an exception/state monad for the handlers, the
    store adapter, the [ProductIn] input model, and finally the handlers
    [_serialize], [seed_products], [list_products], [get_product] and
    [create_product].

    Strings are [String.string]; a character is read as a Unicode code point
    below U+0100 (Latin-1), which is closed under [str.lower].  Titles with
    code points above U+00FF are outside the model. *)

From Stdlib Require Import String Ascii List Bool NArith ZArith QArith Lia.
From Stdlib Require Strings.Byte.
Import ListNotations.

Local Open Scope string_scope.
Local Open Scope list_scope.

(* ===================================================================== *)
(** ** Python string methods *)
(* ===================================================================== *)

Module PyStr.

(** [str.isspace] on one code point below U+0100: TAB..CR, FS..US, SPACE,
    NEL (U+0085) and NBSP (U+00A0). *)
Definition is_space (c : ascii) : bool :=
  let n := N_of_ascii c in
  (((9 <=? n) && (n <=? 13)) || ((28 <=? n) && (n <=? 32))
   || (n =? 133) || (n =? 160))%N.

(** [str.lower] on one code point below U+0100: A..Z and the Latin-1
    capitals U+00C0..U+00DE (the multiplication sign U+00D7 apart) move up
    by 32; everything else is kept. *)
Definition lower_char (c : ascii) : ascii :=
  let n := N_of_ascii c in
  if (((65 <=? n) && (n <=? 90))
      || ((192 <=? n) && (n <=? 222) && negb (n =? 215)))%N
  then ascii_of_N (n + 32) else c.

(** [s.lower()] *)
Fixpoint lower (s : string) : string :=
  match s with
  | EmptyString => EmptyString
  | String c s' => String (lower_char c) (lower s')
  end.

(** [s.lstrip()] *)
Fixpoint lstrip (s : string) : string :=
  match s with
  | EmptyString => EmptyString
  | String c s' => if is_space c then lstrip s' else s
  end.

(** [s.rstrip()]: a character is dropped when it is whitespace and
    everything after it has been dropped. *)
Fixpoint rstrip (s : string) : string :=
  match s with
  | EmptyString => EmptyString
  | String c s' =>
      match rstrip s' with
      | EmptyString => if is_space c then EmptyString else String c EmptyString
      | r => String c r
      end
  end.

(** [s.strip()] *)
Definition strip (s : string) : string := rstrip (lstrip s).

(** Left-to-right scan of [s.replace(old, new)] for a non-empty [old]:
    [skip] counts the characters of a match still to be passed over. *)
Fixpoint replace_scan (old new : string) (skip : nat) (s : string) : string :=
  match s with
  | EmptyString => EmptyString
  | String c s' =>
      match skip with
      | S k => replace_scan old new k s'
      | O =>
          if prefix old s
          then new ++ replace_scan old new (String.length old - 1) s'
          else String c (replace_scan old new 0 s')
      end
  end.

(** With an empty [old], Python puts [new] before every character and at
    the end. *)
Fixpoint replace_empty (new s : string) : string :=
  match s with
  | EmptyString => new
  | String c s' => new ++ String c (replace_empty new s')
  end.

(** [s.replace(old, new)] *)
Definition replace (old new s : string) : string :=
  match old with
  | EmptyString => replace_empty new s
  | _ => replace_scan old new 0 s
  end.

(** *** The wording of the specification, for comparison *)

(** Every occurrence of the character [c] becomes the text [t]. *)
Fixpoint subst_char (c : ascii) (t : string) (s : string) : string :=
  match s with
  | EmptyString => EmptyString
  | String x s' =>
      if Ascii.eqb x c then t ++ subst_char c t s'
      else String x (subst_char c t s')
  end.

Fixpoint drop_spaces (l : list ascii) : list ascii :=
  match l with
  | [] => []
  | c :: l' => if is_space c then drop_spaces l' else l
  end.

(** Whitespace removed from both ends. *)
Definition trim (s : string) : string :=
  string_of_list_ascii
    (rev (drop_spaces (rev (drop_spaces (list_ascii_of_string s))))).

End PyStr.

(** The slug rule as the specification words it: lower-case, trim, spaces
    to hyphens, ampersands to the word "and". *)
Definition spec_slug (title : string) : string :=
  PyStr.subst_char "&" "and"
    (PyStr.subst_char " " "-" (PyStr.trim (PyStr.lower title))).

(** [create_product], the expression assigned to [data["slug"]]:
    [data["title"].lower().strip().replace(" ", "-").replace("&", "and")] *)
Definition derive_slug (title : string) : string :=
  PyStr.replace "&" "and"
    (PyStr.replace " " "-" (PyStr.strip (PyStr.lower title))).

(* ===================================================================== *)
(** ** [bson.ObjectId] *)
(* ===================================================================== *)

Module Bson.

(** The identifier is its twelve bytes ([ObjectId.binary]). *)
Definition ObjectId : Type := list Byte.byte.

Definition ObjectId_eqb (a b : ObjectId) : bool :=
  if list_eq_dec Byte.byte_eq_dec a b then true else false.

(** Value of one hexadecimal digit, either case. *)
Definition hex_value (c : ascii) : option N :=
  let n := N_of_ascii c in
  if ((48 <=? n) && (n <=? 57))%N then Some (n - 48)%N
  else if ((97 <=? n) && (n <=? 102))%N then Some (n - 87)%N
  else if ((65 <=? n) && (n <=? 70))%N then Some (n - 55)%N
  else None.

(** The digit [binascii.hexlify] prints for a value below 16: lower case. *)
Definition hex_digit (n : N) : ascii :=
  if (n <? 10)%N then ascii_of_N (48 + n) else ascii_of_N (87 + n).

(** ASCII whitespace, which [bytes.fromhex] passes over between bytes. *)
Definition is_ascii_space (c : ascii) : bool :=
  let n := N_of_ascii c in
  (((9 <=? n) && (n <=? 13)) || (n =? 32))%N.

(** [bytes.fromhex(s)]: two digits per byte; [None] stands for the
    [ValueError]. *)
Fixpoint fromhex (s : string) : option (list Byte.byte) :=
  match s with
  | EmptyString => Some []
  | String a s1 =>
      if is_ascii_space a then fromhex s1
      else
        match s1 with
        | EmptyString => None
        | String b s2 =>
            match hex_value a, hex_value b with
            | Some h, Some l =>
                match Byte.of_N (16 * h + l), fromhex s2 with
                | Some x, Some r => Some (x :: r)
                | _, _ => None
                end
            | _, _ => None
            end
        end
  end.

(** [binascii.hexlify(b).decode()] *)
Fixpoint hexlify (b : list Byte.byte) : string :=
  match b with
  | [] => EmptyString
  | x :: r =>
      let n := Byte.to_N x in
      String (hex_digit (n / 16)) (String (hex_digit (n mod 16)) (hexlify r))
  end.

(** [ObjectId(s)] for a [str] argument: the length must be 24 and
    [bytes.fromhex] must succeed; [None] stands for [InvalidId]. *)
Definition parse (s : string) : option ObjectId :=
  if Nat.eqb (String.length s) 24 then fromhex s else None.

(** [str(oid)] *)
Definition to_str (o : ObjectId) : string := hexlify o.

(** A string of hexadecimal digits only. *)
Fixpoint all_hex (s : string) : bool :=
  match s with
  | EmptyString => true
  | String c s' =>
      match hex_value c with Some _ => all_hex s' | None => false end
  end.

(** The [n]-th generated identifier.  The driver builds it from the clock, a
    random value and a counter; here the twelve bytes are the big-endian
    digits of a counter kept in the model's state. *)
Definition byte_at (n : N) (i : N) : Byte.byte :=
  match Byte.of_N ((n / 256 ^ i) mod 256) with
  | Some b => b
  | None => Byte.x00
  end.

Definition generate (n : N) : ObjectId :=
  map (byte_at n) [11; 10; 9; 8; 7; 6; 5; 4; 3; 2; 1; 0]%N.

End Bson.

(* ===================================================================== *)
(** ** Values and dictionaries *)
(* ===================================================================== *)

(** What a document field or a JSON body field can hold.  A number (an
    [int] or a finite [float]) is given by its exact value, a rational: the
    handlers only pass prices through and the schema compares them with
    zero. *)
#[local] Unset Elimination Schemes.
Inductive value : Type :=
| VNone
| VBool (b : bool)
| VNum (q : Q)
| VStr (s : string)
| VOid (o : Bson.ObjectId)
| VList (l : list value)
| VDict (d : list (string * value)).
#[local] Set Elimination Schemes.

(** A Python [dict] with string keys, in insertion order. *)
Definition dict : Type := list (string * value).

(** Python truth value ([bool(v)]); an [ObjectId] defines neither
    [__bool__] nor [__len__], so it is always true. *)
Definition truthy (v : value) : bool :=
  match v with
  | VNone => false
  | VBool b => b
  | VNum q => negb (Qeq_bool q 0)
  | VStr s => negb (String.eqb s "")
  | VOid _ => true
  | VList l => match l with [] => false | _ => true end
  | VDict d => match d with [] => false | _ => true end
  end.

Fixpoint lookup (k : string) (d : dict) : option value :=
  match d with
  | [] => None
  | (k', v) :: d' => if String.eqb k k' then Some v else lookup k d'
  end.

(** [d.get(k)] *)
Definition dict_get (d : dict) (k : string) : value :=
  match lookup k d with Some v => v | None => VNone end.

(** [d.pop(k)]: the dictionary that is left. *)
Fixpoint dict_pop (d : dict) (k : string) : dict :=
  match d with
  | [] => []
  | (k', v) :: d' => if String.eqb k k' then d' else (k', v) :: dict_pop d' k
  end.

(** [d[k] = v]: an existing key keeps its place, a new one goes last. *)
Fixpoint dict_set (d : dict) (k : string) (v : value) : dict :=
  match d with
  | [] => [(k, v)]
  | (k', v') :: d' =>
      if String.eqb k k' then (k', v) :: d' else (k', v') :: dict_set d' k v
  end.

(** Equality of values as the store compares them in a filter. *)
Fixpoint value_eqb (a b : value) {struct a} : bool :=
  match a, b with
  | VNone, VNone => true
  | VBool x, VBool y => Bool.eqb x y
  | VNum x, VNum y => Qeq_bool x y
  | VStr x, VStr y => String.eqb x y
  | VOid x, VOid y => Bson.ObjectId_eqb x y
  | VList x, VList y =>
      (fix list_eqb (l1 l2 : list value) {struct l1} : bool :=
         match l1, l2 with
         | [], [] => true
         | u :: l1', v :: l2' => value_eqb u v && list_eqb l1' l2'
         | _, _ => false
         end) x y
  | VDict x, VDict y =>
      (fix dict_eqb (l1 l2 : list (string * value)) {struct l1} : bool :=
         match l1, l2 with
         | [], [] => true
         | (k1, u) :: l1', (k2, v) :: l2' =>
             String.eqb k1 k2 && value_eqb u v && dict_eqb l1' l2'
         | _, _ => false
         end) x y
  | _, _ => false
  end.

(** Modelled from the spec: the adapter's filter, "a simple
    equality-conjunction map (key -> exact value)": every key of [filt] is
    present in [doc] with an equal value. *)
Definition matches (filt doc : dict) : bool :=
  forallb
    (fun kv => match lookup (fst kv) doc with
               | Some v => value_eqb v (snd kv)
               | None => false
               end)
    filt.

(** The driver's equality condition [{k: v}] on one field: a field that
    holds an array matches when the array itself or one of its elements
    equals [v]; any other value matches when it equals [v]; a missing field
    matches [None] only. *)
Definition field_matches (field : option value) (v : value) : bool :=
  match field with
  | None => value_eqb VNone v
  | Some (VList l) =>
      value_eqb (VList l) v || existsb (fun x => value_eqb x v) l
  | Some x => value_eqb x v
  end.

(** The driver's query for a filter of plain values under keys without
    dots, as every filter of [main.py] is: the conjunction of the field
    conditions.  Query operators and dotted paths are not in the model. *)
Definition mongo_matches (filt doc : dict) : bool :=
  forallb (fun kv => field_matches (lookup (fst kv) doc) (snd kv)) filt.

(* ===================================================================== *)
(** ** Exceptions, the process state and the handler monad *)
(* ===================================================================== *)

(** The exceptions the module can meet; all derive from [Exception].  The
    [detail] of an [HTTPException] is either a literal or [str(e)] of the
    exception it was built from, kept as that exception. *)
Inductive exn : Type :=
| TypeError (msg : string)
| KeyError (key : string)
| AttributeError (msg : string)
| PyMongoError (msg : string)
| StoreUnavailable
| WriteError (msg : string)
| ReadError (msg : string)
| ValidationError (fields : list string)
| InvalidId (oid : string)
| HTTPException (status_code : N) (detail : detail)
with detail : Type :=
| Text (s : string)
| StrOf (e : exn).

Definition is_HTTPException (e : exn) : bool :=
  match e with HTTPException _ _ => true | _ => false end.

(** One database: collection name to documents, in insertion order. *)
Definition database : Type := string -> list dict.

(** What the handlers can see and change: the module-level [db]
    ([None] when the adapter has no connection), the faults the coming store
    round trips will meet ([Some msg]: the driver raises with that message;
    none left: the call succeeds), and the counter behind fresh
    identifiers. *)
Record world : Type := mkWorld {
  db : option database;
  faults : list (option string);
  next_oid : N
}.

Inductive outcome (A : Type) : Type :=
| Return (a : A)
| Raise (e : exn).
Arguments Return {A} a.
Arguments Raise {A} e.

(** A computation runs on the state and either returns or raises; the state
    changes made before a [raise] stay. *)
Definition M (A : Type) : Type := world -> outcome A * world.

Definition ret {A} (a : A) : M A := fun w => (Return a, w).

Definition raise {A} (e : exn) : M A := fun w => (Raise e, w).

Definition bind {A B} (c : M A) (k : A -> M B) : M B :=
  fun w =>
    match c w with
    | (Return a, w') => k a w'
    | (Raise e, w') => (Raise e, w')
    end.

(** [try: c  except Exception as e: h e] *)
Definition try_except {A} (c : M A) (h : exn -> M A) : M A :=
  fun w =>
    match c w with
    | (Return a, w') => (Return a, w')
    | (Raise e, w') => h e w'
    end.

Definition lift {A} (o : outcome A) : M A := fun w => (o, w).

Declare Scope py_scope.
Delimit Scope py_scope with py.
Notation "x <- c ;; k" := (bind c (fun x => k))
  (at level 61, c at next level, right associativity) : py_scope.
Notation "c ;;; k" := (bind c (fun _ => k))
  (at level 61, right associativity) : py_scope.
Local Open Scope py_scope.

(** [for x in xs: body x] *)
Fixpoint for_each {A} (xs : list A) (body : A -> M unit) : M unit :=
  match xs with
  | [] => ret tt
  | x :: xs' => body x ;;; for_each xs' body
  end.

(* ===================================================================== *)
(** ** The driver: [db[name]] and the collection methods *)
(* ===================================================================== *)

Module PyMongo.

(** Replace the documents of one collection. *)
Definition set_collection (d : database) (name : string) (docs : list dict)
  : database :=
  fun n => if String.eqb n name then docs else d n.

(** [db[name]]: subscripting [None] is a [TypeError]. *)
Definition getitem (name : string) : M (list dict) :=
  fun w =>
    match db w with
    | None => (Raise (TypeError "'NoneType' object is not subscriptable"), w)
    | Some d => (Return (d name), w)
    end.

(** One round trip to the server: it meets the next planned fault. *)
Definition round_trip : M unit :=
  fun w =>
    match faults w with
    | [] => (Return tt, w)
    | None :: fs => (Return tt, mkWorld (db w) fs (next_oid w))
    | Some msg :: fs =>
        (Raise (PyMongoError msg), mkWorld (db w) fs (next_oid w))
    end.

(** [db[name].count_documents(filt)] *)
Definition count_documents (name : string) (filt : dict) : M N :=
  docs <- getitem name ;;
  round_trip ;;;
  ret (N.of_nat (List.length (filter (mongo_matches filt) docs))).

(** [db[name].find_one(filt)]: the first match, or [None]. *)
Definition find_one (name : string) (filt : dict) : M (option dict) :=
  docs <- getitem name ;;
  round_trip ;;;
  ret (hd_error (filter (mongo_matches filt) docs)).

(** The write itself: the document gets a fresh [_id] and goes last. *)
Definition store (name : string) (doc : dict) : M Bson.ObjectId :=
  fun w =>
    match db w with
    | None => (Raise (TypeError "'NoneType' object is not subscriptable"), w)
    | Some d =>
        let oid := Bson.generate (next_oid w) in
        (Return oid,
         mkWorld
           (Some (set_collection d name (d name ++ [("_id", VOid oid) :: doc])))
           (faults w) (N.succ (next_oid w)))
    end.

(** [db[name].insert_one(doc).inserted_id] *)
Definition insert_one (name : string) (doc : dict) : M Bson.ObjectId :=
  getitem name ;;;
  round_trip ;;;
  store name doc.

End PyMongo.

(* ===================================================================== *)
(** ** Field validation of the data classes *)
(* ===================================================================== *)

(** The two data classes of the program are [pydantic] models.  A field
    validator returns the accepted value or [None].  A string field takes a
    string only and a [bool] field also takes what the library converts to a
    [bool].  A number is given by its exact value; [as_float] takes a number
    as it is, and what the library does with other values (a number written
    as a string, a [bool]) is a parameter of [ProductIn_with]. *)
Module Pydantic.

Definition as_str (v : value) : option string :=
  match v with VStr s => Some s | _ => None end.

Definition as_float (v : value) : option Q :=
  match v with VNum q => Some q | _ => None end.

(** [str.eq_ignore_ascii_case]: equal once the letters A..Z are put in
    lower case. *)
Definition ascii_lower_char (c : ascii) : ascii :=
  let n := N_of_ascii c in
  if ((65 <=? n) && (n <=? 90))%N then ascii_of_N (n + 32) else c.

Fixpoint ascii_lower (s : string) : string :=
  match s with
  | EmptyString => EmptyString
  | String c s' => String (ascii_lower_char c) (ascii_lower s')
  end.

Definition eq_ignore_ascii_case (s t : string) : bool :=
  String.eqb (ascii_lower s) (ascii_lower t).

(** A string as a [bool]: "0" and "1", and the words below in any case. *)
Definition str_as_bool (s : string) : option bool :=
  if String.eqb s "0"
     || eq_ignore_ascii_case s "f" || eq_ignore_ascii_case s "n"
     || eq_ignore_ascii_case s "no" || eq_ignore_ascii_case s "off"
     || eq_ignore_ascii_case s "false"
  then Some false
  else if String.eqb s "1"
          || eq_ignore_ascii_case s "t" || eq_ignore_ascii_case s "y"
          || eq_ignore_ascii_case s "on" || eq_ignore_ascii_case s "yes"
          || eq_ignore_ascii_case s "true"
  then Some true
  else None.

(** A [bool] field: a [bool] is taken as it is; the numbers 0 and 1 and the
    strings of [str_as_bool] are converted; anything else is an error. *)
Definition as_bool (v : value) : option bool :=
  match v with
  | VBool b => Some b
  | VNum q =>
      if Qeq_bool q 0 then Some false
      else if Qeq_bool q 1 then Some true
      else None
  | VStr s => str_as_bool s
  | _ => None
  end.

Fixpoint as_strs (l : list value) : option (list string) :=
  match l with
  | [] => Some []
  | v :: l' =>
      match as_str v, as_strs l' with
      | Some s, Some r => Some (s :: r)
      | _, _ => None
      end
  end.

Definition as_list_str (v : value) : option (list string) :=
  match v with VList l => as_strs l | _ => None end.

(** [Optional[T]]: [None] is accepted as such. *)
Definition as_optional {A} (f : value -> option A) (v : value)
  : option (option A) :=
  match v with
  | VNone => Some None
  | _ => option_map Some (f v)
  end.

(** One declared field: a supplied value is validated; an absent field
    takes the declared default, and is an error when there is none. *)
Definition field {A} (f : value -> option A) (default : option A)
  (kw : dict) (k : string) : option A :=
  match lookup k kw with
  | Some v => f v
  | None => default
  end.

(** The name of the field when it did not validate. *)
Definition offending {A} (k : string) (r : option A) : list string :=
  match r with Some _ => [] | None => [k] end.

Definition value_of {A} (dflt : A) (r : option A) : A :=
  match r with Some a => a | None => dflt end.

Definition dump_opt_str (o : option string) : value :=
  match o with Some s => VStr s | None => VNone end.

Definition dump_opt_strs (o : option (list string)) : value :=
  match o with Some l => VList (map VStr l) | None => VNone end.

End Pydantic.

(* ===================================================================== *)
(** ** [schemas.Product] *)
(* ===================================================================== *)

Module Schemas.

(** Modelled from the spec: [schemas.py] is not among the sources.  The
    class [Product] has the attributes the data model lists (all but the
    store-assigned [id]). *)
Record Product : Type := mkProduct {
  title : string;
  description : option string;
  price : Q;
  category : string;
  in_stock : bool;
  sku : option string;
  images : option (list string);
  features : option (list string);
  slug : option string;
  brand : option string
}.

(** Modelled from the spec: the constraint "non-empty string" of [title]
    and [category]. *)
Definition nonempty (o : option string) : option string :=
  match o with
  | Some s => if String.eqb s "" then None else Some s
  | None => None
  end.

(** Modelled from the spec: the constraint "non-negative number" of
    [price]. *)
Definition nonnegative (o : option Q) : option Q :=
  match o with
  | Some q => if Qle_bool 0 q then Some q else None
  | None => None
  end.

(** Modelled from the spec: [Product], built from the keyword arguments
    [data], validates the required
    fields, [title] a non-empty string, [price] a non-negative number,
    [category] a non-empty string, and fails with a [ValidationError] that
    lists the offending fields; [in_stock] defaults to true and [brand] to
    "Vollara". *)
Definition ProductSchema (data : dict) : outcome Product :=
  let f_title := nonempty (Pydantic.field Pydantic.as_str None data "title") in
  let f_description :=
    Pydantic.field (Pydantic.as_optional Pydantic.as_str) (Some None)
      data "description" in
  let f_price :=
    nonnegative (Pydantic.field Pydantic.as_float None data "price") in
  let f_category :=
    nonempty (Pydantic.field Pydantic.as_str None data "category") in
  let f_in_stock := Pydantic.field Pydantic.as_bool (Some true) data "in_stock" in
  let f_sku :=
    Pydantic.field (Pydantic.as_optional Pydantic.as_str) (Some None)
      data "sku" in
  let f_images :=
    Pydantic.field (Pydantic.as_optional Pydantic.as_list_str) (Some None)
      data "images" in
  let f_features :=
    Pydantic.field (Pydantic.as_optional Pydantic.as_list_str) (Some None)
      data "features" in
  let f_slug :=
    Pydantic.field (Pydantic.as_optional Pydantic.as_str) (Some None)
      data "slug" in
  let f_brand :=
    Pydantic.field (Pydantic.as_optional Pydantic.as_str)
      (Some (Some "Vollara")) data "brand" in
  match Pydantic.offending "title" f_title
        ++ Pydantic.offending "description" f_description
        ++ Pydantic.offending "price" f_price
        ++ Pydantic.offending "category" f_category
        ++ Pydantic.offending "in_stock" f_in_stock
        ++ Pydantic.offending "sku" f_sku
        ++ Pydantic.offending "images" f_images
        ++ Pydantic.offending "features" f_features
        ++ Pydantic.offending "slug" f_slug
        ++ Pydantic.offending "brand" f_brand
  with
  | [] =>
      Return
        (mkProduct
           (Pydantic.value_of "" f_title)
           (Pydantic.value_of None f_description)
           (Pydantic.value_of 0%Q f_price)
           (Pydantic.value_of "" f_category)
           (Pydantic.value_of true f_in_stock)
           (Pydantic.value_of None f_sku)
           (Pydantic.value_of None f_images)
           (Pydantic.value_of None f_features)
           (Pydantic.value_of None f_slug)
           (Pydantic.value_of None f_brand))
  | errs => Raise (ValidationError errs)
  end.

(** Modelled from the spec: [Product.model_dump()], the record that
    [create_document] hands to the store, with the attributes above. *)
Definition model_dump (p : Product) : dict :=
  [ ("title", VStr (title p));
    ("description", Pydantic.dump_opt_str (description p));
    ("price", VNum (price p));
    ("category", VStr (category p));
    ("in_stock", VBool (in_stock p));
    ("sku", Pydantic.dump_opt_str (sku p));
    ("images", Pydantic.dump_opt_strs (images p));
    ("features", Pydantic.dump_opt_strs (features p));
    ("slug", Pydantic.dump_opt_str (slug p));
    ("brand", Pydantic.dump_opt_str (brand p)) ].

End Schemas.

(* ===================================================================== *)
(** ** [database.create_document] and [database.get_documents] *)
(* ===================================================================== *)

Module Database.

(** Modelled from the spec: [database.py] is not among the sources.
    [create_document] is the adapter's insert: it returns the string form
    of the newly generated identifier, fails with [StoreUnavailable] when
    there is no live connection and with [WriteError] on any lower-level
    failure. *)
Definition create_document (name : string) (data : Schemas.Product)
  : M string :=
  fun w =>
    match db w with
    | None => (Raise StoreUnavailable, w)
    | Some _ =>
        try_except
          (oid <- PyMongo.insert_one name (Schemas.model_dump data) ;;
           ret (Bson.to_str oid))
          (fun e =>
             match e with
             | PyMongoError msg => raise (WriteError msg)
             | _ => raise e
             end)
          w
    end.

(** Modelled from the spec: the records of a collection that pass the
    adapter's filter, in the store's order. *)
Definition find (name : string) (filt : dict) : M (list dict) :=
  docs <- PyMongo.getitem name ;;
  PyMongo.round_trip ;;;
  ret (filter (matches filt) docs).

(** Modelled from the spec: [get_documents] is the adapter's find.  The
    filter is an equality conjunction, the records come in the store's
    order, an absent limit means all of them and a limit [n] the first [n];
    it fails with [StoreUnavailable] or [ReadError]. *)
Definition get_documents (name : string) (filt : dict) (limit : option Z)
  : M (list dict) :=
  fun w =>
    match db w with
    | None => (Raise StoreUnavailable, w)
    | Some _ =>
        try_except
          (docs <- find name filt ;;
           ret (match limit with
                | None => docs
                | Some n => firstn (Z.to_nat n) docs
                end))
          (fun e =>
             match e with
             | PyMongoError msg => raise (ReadError msg)
             | _ => raise e
             end)
          w
    end.

End Database.

(* ===================================================================== *)
(** ** [main.py] *)
(* ===================================================================== *)

(** [class ProductIn(BaseModel)] *)
Record ProductIn : Type := mkProductIn {
  title : string;
  description : option string;
  price : Q;
  category : string;
  in_stock : bool;
  sku : option string;
  images : option (list string);
  features : option (list string);
  slug : option string;
  brand : option string
}.

(** [ProductIn(...)] from keyword arguments (or a request body): [title],
    [price] and [category] are required; the other fields have the defaults
    the class declares.  [to_float] is the validation of the [float] field
    [price]. *)
Definition ProductIn_with (to_float : value -> option Q) (kw : dict)
  : outcome ProductIn :=
  let f_title := Pydantic.field Pydantic.as_str None kw "title" in
  let f_description :=
    Pydantic.field (Pydantic.as_optional Pydantic.as_str) (Some None)
      kw "description" in
  let f_price := Pydantic.field to_float None kw "price" in
  let f_category := Pydantic.field Pydantic.as_str None kw "category" in
  let f_in_stock := Pydantic.field Pydantic.as_bool (Some true) kw "in_stock" in
  let f_sku :=
    Pydantic.field (Pydantic.as_optional Pydantic.as_str) (Some None)
      kw "sku" in
  let f_images :=
    Pydantic.field (Pydantic.as_optional Pydantic.as_list_str) (Some None)
      kw "images" in
  let f_features :=
    Pydantic.field (Pydantic.as_optional Pydantic.as_list_str) (Some None)
      kw "features" in
  let f_slug :=
    Pydantic.field (Pydantic.as_optional Pydantic.as_str) (Some None)
      kw "slug" in
  let f_brand :=
    Pydantic.field (Pydantic.as_optional Pydantic.as_str)
      (Some (Some "Vollara")) kw "brand" in
  match Pydantic.offending "title" f_title
        ++ Pydantic.offending "description" f_description
        ++ Pydantic.offending "price" f_price
        ++ Pydantic.offending "category" f_category
        ++ Pydantic.offending "in_stock" f_in_stock
        ++ Pydantic.offending "sku" f_sku
        ++ Pydantic.offending "images" f_images
        ++ Pydantic.offending "features" f_features
        ++ Pydantic.offending "slug" f_slug
        ++ Pydantic.offending "brand" f_brand
  with
  | [] =>
      Return
        (mkProductIn
           (Pydantic.value_of "" f_title)
           (Pydantic.value_of None f_description)
           (Pydantic.value_of 0%Q f_price)
           (Pydantic.value_of "" f_category)
           (Pydantic.value_of true f_in_stock)
           (Pydantic.value_of None f_sku)
           (Pydantic.value_of None f_images)
           (Pydantic.value_of None f_features)
           (Pydantic.value_of None f_slug)
           (Pydantic.value_of None f_brand))
  | errs => Raise (ValidationError errs)
  end.

(** The same with a price that is a number already, as in every call of
    [main.py]. *)
Definition ProductIn_init (kw : dict) : outcome ProductIn :=
  ProductIn_with Pydantic.as_float kw.

(** [product.model_dump()] *)
Definition model_dump (p : ProductIn) : dict :=
  [ ("title", VStr (title p));
    ("description", Pydantic.dump_opt_str (description p));
    ("price", VNum (price p));
    ("category", VStr (category p));
    ("in_stock", VBool (in_stock p));
    ("sku", Pydantic.dump_opt_str (sku p));
    ("images", Pydantic.dump_opt_strs (images p));
    ("features", Pydantic.dump_opt_strs (features p));
    ("slug", Pydantic.dump_opt_str (slug p));
    ("brand", Pydantic.dump_opt_str (brand p)) ].

(** Truth value of what [find_one] returns: [None] and the empty
    dictionary are false. *)
Definition doc_truthy (doc : option dict) : bool :=
  match doc with
  | None => false
  | Some d => truthy (VDict d)
  end.

(** The keyword arguments of the three [ProductIn(...)] in
    [seed_products]. *)
Definition samples_kw : list dict :=
  [ [ ("title", VStr "Air & Surface Pro");
      ("slug", VStr "air-and-surface-pro");
      ("description",
       VStr "Advanced active air and surface purification for homes and businesses.");
      ("price", VNum 799);
      ("category", VStr "Air Purifier");
      ("images",
       VList [VStr "https://images.unsplash.com/photo-1582719478250-c89cae4dc85b?w=1200&q=80&auto=format&fit=crop"]);
      ("features",
       VList [VStr "ActivePure Technology"; VStr "Covers large areas";
              VStr "Whisper-quiet operation"]) ];
    [ ("title", VStr "FreshAir Personal");
      ("slug", VStr "freshair-personal");
      ("description",
       VStr "Wearable personal air purifier for on-the-go protection.");
      ("price", VNum 199);
      ("category", VStr "Wearable");
      ("images",
       VList [VStr "https://images.unsplash.com/photo-1505740106531-4243f3831c78?w=1200&q=80&auto=format&fit=crop"]);
      ("features",
       VList [VStr "Lightweight and portable"; VStr "USB rechargeable";
              VStr "Personal clean-air zone"]) ];
    [ ("title", VStr "Hydration System");
      ("slug", VStr "living-water");
      ("description",
       VStr "At-home water ionization and filtration for better-tasting water.");
      ("price", VNum 1299);
      ("category", VStr "Water");
      ("images",
       VList [VStr "https://images.unsplash.com/photo-1548839140-29a749e1cf4d?w=1200&q=80&auto=format&fit=crop"]);
      ("features",
       VList [VStr "Multiple pH levels"; VStr "Advanced filtration";
              VStr "Easy-install countertop"]) ] ].

(** A list display whose elements are built in order. *)
Fixpoint build_all {A} (cs : list (outcome A)) : M (list A) :=
  match cs with
  | [] => ret []
  | c :: cs' => x <- lift c ;; xs <- build_all cs' ;; ret (x :: xs)
  end.

(** [seed_products]: the body of the [try] ... *)
Definition seed_body : M unit :=
  fun w =>
    match db w with
    | None => (Return tt, w)
    | Some _ =>
        (count <- PyMongo.count_documents "product" [] ;;
         if (count =? 0)%N then
           samples <- build_all (map ProductIn_init samples_kw) ;;
           for_each samples
             (fun s =>
                p <- lift (Schemas.ProductSchema (model_dump s)) ;;
                Database.create_document "product" p ;;;
                ret tt)
         else ret tt) w
    end.

(** ... and the handler that ignores every exception. *)
Definition seed_products : M unit :=
  try_except seed_body (fun _ => ret tt).

(** [create_product], the "ensure slug" step on the dumped input. *)
Definition ensure_slug (data : dict) : M dict :=
  if negb (truthy (dict_get data "slug")) then
    match lookup "title" data with
    | None => raise (KeyError "title")
    | Some (VStr t) => ret (dict_set data "slug" (VStr (derive_slug t)))
    | Some _ => raise (AttributeError "lower")
    end
  else ret data.

Section Main.

(** [str(v)] of a number or of a container: float formatting and the
    [repr] of nested values are not modelled, they are taken as given. *)
Variable py_repr : value -> string.

(** [str(v)] *)
Definition py_str (v : value) : string :=
  match v with
  | VNone => "None"
  | VBool true => "True"
  | VBool false => "False"
  | VStr s => s
  | VOid o => Bson.to_str o
  | _ => py_repr v
  end.

(** The loop of [_serialize]: a value that is an [ObjectId] is replaced by
    its string, under the same key. *)
Definition stringify_item (kv : string * value) : string * value :=
  match snd kv with
  | VOid o => (fst kv, VStr (py_str (VOid o)))
  | _ => kv
  end.

(** The same loop statement by statement: the items are listed first,
    then [doc[k] = str(v)] is done for each item that holds an [ObjectId].
    On a dictionary (distinct keys) it is the map above, see
    [stringify_loop_map]. *)
Definition stringify_loop (d : dict) : dict :=
  fold_left
    (fun doc kv =>
       match snd kv with
       | VOid o => dict_set doc (fst kv) (VStr (py_str (VOid o)))
       | _ => doc
       end)
    d d.

Definition _serialize (doc : option dict) : option dict :=
  match doc with
  | None => None
  | Some d =>
      if negb (doc_truthy doc) then doc
      else
        let d1 :=
          if truthy (dict_get d "_id")
          then dict_set (dict_pop d "_id") "id"
                 (VStr (py_str (dict_get d "_id")))
          else d in
        Some (map stringify_item d1)
  end.

Definition list_products (limit : option Z) (category : option string)
  : M (list (option dict)) :=
  try_except
    (let filter_q : dict := [] in
     let filter_q :=
       if truthy (Pydantic.dump_opt_str category)
       then dict_set filter_q "category" (Pydantic.dump_opt_str category)
       else filter_q in
     docs <- Database.get_documents "product" filter_q limit ;;
     ret (map (fun d => _serialize (Some d)) docs))
    (fun e => raise (HTTPException 500 (StrOf e))).

Definition get_product (slug : string) : M (option dict) :=
  try_except
    (doc <- PyMongo.find_one "product" [("slug", VStr slug)] ;;
     if negb (doc_truthy doc)
     then raise (HTTPException 404 (Text "Product not found"))
     else ret (_serialize doc))
    (fun e =>
       if is_HTTPException e then raise e
       else raise (HTTPException 500 (StrOf e))).

Definition create_product (product : ProductIn) : M (option dict) :=
  try_except
    (data <- ensure_slug (model_dump product) ;;
     p <- lift (Schemas.ProductSchema data) ;;
     pid <- Database.create_document "product" p ;;
     PyMongo.getitem "product" ;;;
     oid <- lift (match Bson.parse pid with
                  | Some o => Return o
                  | None => Raise (InvalidId pid)
                  end) ;;
     doc <- PyMongo.find_one "product" [("_id", VOid oid)] ;;
     ret (_serialize doc))
    (fun e => raise (HTTPException 500 (StrOf e))).

End Main.

(* ===================================================================== *)
(** ** States and inputs used in the examples *)
(* ===================================================================== *)

(** The fault, if any, that the next store round trip meets. *)
Definition next_fault (w : world) : option string :=
  match faults w with
  | Some msg :: _ => Some msg
  | _ => None
  end.

(** An instance of [py_repr] for the closed examples; none of them reaches
    it. *)
Definition no_repr : value -> string := fun _ => "".

(** A connected store holding the given product documents. *)
Definition world_with (docs : list dict) : world :=
  mkWorld (Some (fun name => if String.eqb name "product" then docs else []))
          [] 0.

(** The documents of the product collection, when connected. *)
Definition products (w : world) : list dict :=
  match db w with
  | Some d => d "product"
  | None => []
  end.

Definition air_pro_with_slug (s : option string) : ProductIn :=
  mkProductIn "Air & Surface Pro" None 799 "Air Purifier" true None None None
              s (Some "Vollara").

Definition water_doc : dict :=
  [ ("_id", VOid (Bson.generate 7));
    ("title", VStr "Hydration System");
    ("price", VNum 1299);
    ("category", VStr "Water");
    ("slug", VStr "living-water") ].

(** The required fields of an input that the schema's constraints reject:
    an empty title, a negative price, an empty category. *)
Definition offending_fields (p : ProductIn) : list string :=
  (if String.eqb (title p) "" then ["title"] else [])
  ++ (if Qle_bool 0 (price p) then [] else ["price"])
  ++ (if String.eqb (category p) "" then ["category"] else []).

(** The schema object built from an accepted input whose slug is [s]. *)
Definition as_product (p : ProductIn) (s : option string) : Schemas.Product :=
  Schemas.mkProduct (title p) (description p) (price p) (category p)
    (in_stock p) (sku p) (images p) (features p) s (brand p).

(** The dumped input, with the slug entry holding [v]. *)
Definition dump_with_slug (p : ProductIn) (v : value) : dict :=
  dict_set (model_dump p) "slug" v.

(** Whether an [ObjectId] occurs anywhere in a value, at any depth. *)
Fixpoint has_oid (v : value) : bool :=
  match v with
  | VOid _ => true
  | VList l =>
      (fix any (l : list value) : bool :=
         match l with
         | [] => false
         | x :: l' => has_oid x || any l'
         end) l
  | VDict d =>
      (fix any (d : list (string * value)) : bool :=
         match d with
         | [] => false
         | (_, x) :: d' => has_oid x || any d'
         end) d
  | _ => false
  end.

(** A stored record that is listed under two slugs. *)
Definition bundle_doc : dict :=
  [ ("_id", VOid (Bson.generate 3));
    ("title", VStr "Bundle");
    ("slug", VList [VStr "bundle"; VStr "kit"]) ].

(** A stored record that refers to another record inside a list. *)
Definition kit_doc : dict :=
  [ ("_id", VOid (Bson.generate 1));
    ("title", VStr "Starter Kit");
    ("related", VList [VOid (Bson.generate 2)]) ].

(** An identifier written in capital hexadecimal digits, and a record
    stored under the identifier these digits denote. *)
Definition capital_id : string := "AAAAAAAAAAAAAAAAAAAAAAAA".

Definition capital_doc : dict :=
  [ ("_id", VOid (repeat Byte.xaa 12));
    ("title", VStr "Hydration System");
    ("slug", VStr "living-water") ].

(* ===================================================================== *)
(** ** The diagnostic endpoints *)
(* ===================================================================== *)

(** [read_root] *)
Definition read_root : dict :=
  [("message", VStr "Vollara Products Backend is running")].

(** [hello] *)
Definition hello : dict :=
  [("message", VStr "Hello from the backend API!")].

(** What [test_database] looks at in the module-level [db] when it is not
    [None]: its [name] attribute ([None] when [hasattr(db, 'name')] is
    false) and what [db.list_collection_names()] does, which is to return the
    names or to raise an exception, given here by its [str(e)]. *)
Record db_handle : Type := mkHandle {
  handle_name : option string;
  handle_listing : list string + string
}.

(** [os.getenv(k)] as a condition: set, and not to the empty string. *)
Definition getenv_set (env : string -> option string) (k : string) : bool :=
  truthy (Pydantic.dump_opt_str (env k)).

(** [test_database].  The labels hold characters above U+00FF; they are
    written as the UTF-8 bytes of the source text.  [s[:50]] is
    [substring 0 50 s] and [xs[:10]] is [firstn 10 xs].  Nothing in the
    outer [try] can raise once the inner one has its own handler, so the
    outer [except] has no counterpart here. *)
Definition test_database
  (dbo : option db_handle) (env : string -> option string) : dict :=
  let response : dict :=
    [ ("backend", VStr "✅ Running");
      ("database", VStr "❌ Not Available");
      ("database_url", VNone);
      ("database_name", VNone);
      ("connection_status", VStr "Not Connected");
      ("collections", VList []) ] in
  let response :=
    match dbo with
    | Some h =>
        let response := dict_set response "database" (VStr "✅ Available") in
        let response :=
          dict_set response "database_url" (VStr "✅ Configured") in
        let response :=
          dict_set response "database_name"
            (VStr match handle_name h with
                  | Some n => n
                  | None => "✅ Connected"
                  end) in
        let response :=
          dict_set response "connection_status" (VStr "Connected") in
        match handle_listing h with
        | inl collections =>
            let response :=
              dict_set response "collections"
                (VList (map VStr (firstn 10 collections))) in
            dict_set response "database" (VStr "✅ Connected & Working")
        | inr msg =>
            dict_set response "database"
              (VStr ("⚠️  Connected but Error: " ++ substring 0 50 msg))
        end
    | None =>
        dict_set response "database"
          (VStr "⚠️  Available but not initialized")
    end in
  let response :=
    dict_set response "database_url"
      (VStr (if getenv_set env "DATABASE_URL" then "✅ Set"
             else "❌ Not Set")) in
  dict_set response "database_name"
    (VStr (if getenv_set env "DATABASE_NAME" then "✅ Set"
           else "❌ Not Set")).

(* ===================================================================== *)
(** ** Predicates for the further properties *)
(* ===================================================================== *)

(** Every character of the string passes the test. *)
Fixpoint all_chars (f : ascii -> bool) (s : string) : bool :=
  match s with
  | EmptyString => true
  | String c s' => f c && all_chars f s'
  end.

(** A character a derived slug can hold: not a space, not an ampersand,
    and left alone by [str.lower]. *)
Definition slug_char (c : ascii) : bool :=
  negb (Ascii.eqb c " ") && negb (Ascii.eqb c "&")
  && Ascii.eqb (PyStr.lower_char c) c.

(** The field names of a dictionary. *)
Definition keys (d : dict) : list string := map fst d.

(* ===================================================================== *)
(** ** Records, wire records and identifier strings *)
(* ===================================================================== *)

(** A record holds [v] under [k]: the field is [v], or an array with [v]
    among its elements. *)
Definition field_holds (k : string) (v : value) (doc : dict) : Prop :=
  lookup k doc = Some v
  \/ exists l, lookup k doc = Some (VList l) /\ In v l.

(** A field as the wire shows it: an identifier by its string. *)
Definition shown (v : option value) : option value :=
  match v with
  | Some (VOid o) => Some (VStr (Bson.to_str o))
  | other => other
  end.

(** The wire form of a stored record, as the specification words it: no
    field holds an identifier any more, the fields other than the key are
    those of the record, and the key is found under [id] as a string and no
    longer under [_id]. *)
Definition wire_record (doc wire : dict) : Prop :=
  (forall k o, lookup k wire <> Some (VOid o))
  /\ (forall k, k <> "_id" -> k <> "id" -> lookup k wire = shown (lookup k doc))
  /\ (forall o, lookup "_id" doc = Some (VOid o) ->
        lookup "id" wire = Some (VStr (Bson.to_str o))
        /\ (NoDup (keys doc) -> lookup "_id" wire = None)).



(* ===================================================================== *)
(** * Properties *)
(* ===================================================================== *)

(** ** Strings *)

Lemma prefix_empty (s : string) : prefix EmptyString s = true.
Proof. destruct s; reflexivity. Qed.

Lemma replace_scan_char (c : ascii) (t s : string) :
  PyStr.replace_scan (String c EmptyString) t 0 s = PyStr.subst_char c t s.
Proof.
  induction s as [|x s IH]; simpl; [reflexivity|].
  destruct (Ascii.ascii_dec c x) as [->|Hne].
  - rewrite Ascii.eqb_refl, IH, prefix_empty. reflexivity.
  - destruct (Ascii.eqb_spec x c) as [->|_]; [contradiction|].
    rewrite IH. reflexivity.
Qed.

Lemma replace_char (c : ascii) (t s : string) :
  PyStr.replace (String c EmptyString) t s = PyStr.subst_char c t s.
Proof. apply replace_scan_char. Qed.

Lemma lstrip_drop_spaces (s : string) :
  list_ascii_of_string (PyStr.lstrip s)
  = PyStr.drop_spaces (list_ascii_of_string s).
Proof.
  induction s as [|c s IH]; simpl; [reflexivity|].
  destruct (PyStr.is_space c); [exact IH | reflexivity].
Qed.

Lemma drop_spaces_snoc (l : list ascii) (c : ascii) :
  PyStr.drop_spaces (l ++ [c])
  = match PyStr.drop_spaces l with
    | [] => if PyStr.is_space c then [] else [c]
    | r => r ++ [c]
    end.
Proof.
  induction l as [|x l IH]; simpl.
  - destruct (PyStr.is_space c); reflexivity.
  - destruct (PyStr.is_space x); [exact IH | reflexivity].
Qed.

Lemma rstrip_rev (s : string) :
  list_ascii_of_string (PyStr.rstrip s)
  = rev (PyStr.drop_spaces (rev (list_ascii_of_string s))).
Proof.
  induction s as [|c s IH]; simpl; [reflexivity|].
  rewrite drop_spaces_snoc.
  destruct (PyStr.drop_spaces (rev (list_ascii_of_string s))) as [|y r] eqn:E.
  - simpl in IH. destruct (PyStr.rstrip s); [|discriminate].
    destruct (PyStr.is_space c); reflexivity.
  - rewrite rev_app_distr. change (rev [c]) with [c].
    cbn [app]. rewrite <- IH.
    destruct (PyStr.rstrip s) as [|z q] eqn:F.
    + exfalso. simpl in IH.
      apply (f_equal (@List.length ascii)) in IH.
      simpl in IH. rewrite length_app in IH. simpl in IH. lia.
    + reflexivity.
Qed.

Lemma strip_trim (s : string) : PyStr.strip s = PyStr.trim s.
Proof.
  unfold PyStr.strip, PyStr.trim.
  rewrite <- lstrip_drop_spaces, <- rstrip_rev.
  symmetry. apply string_of_list_ascii_of_string.
Qed.

Lemma derive_slug_spec (t : string) : derive_slug t = spec_slug t.
Proof.
  unfold derive_slug, spec_slug.
  rewrite !replace_char, strip_trim. reflexivity.
Qed.

Example derive_slug_air :
  derive_slug "Air & Surface Pro" = "air-and-surface-pro".
Proof. reflexivity. Qed.

Example derive_slug_padded :
  derive_slug "  Living  Water " = "living--water".
Proof. reflexivity. Qed.

Example replace_longer_pattern :
  PyStr.replace "aa" "b" "aaaaa" = "bba".
Proof. reflexivity. Qed.

(** ** Dictionaries *)

Lemma lookup_dict_set_same (d : dict) (k : string) (v : value) :
  lookup k (dict_set d k v) = Some v.
Proof.
  induction d as [|[k' v'] d IH]; simpl.
  - rewrite String.eqb_refl. reflexivity.
  - destruct (String.eqb k k') eqn:E; simpl; rewrite E; auto.
Qed.

Lemma lookup_dict_set_other (d : dict) (k k' : string) (v : value) :
  k <> k' -> lookup k (dict_set d k' v) = lookup k d.
Proof.
  intros Hne. induction d as [|[k0 v0] d IH]; simpl.
  - destruct (String.eqb_spec k k'); [contradiction | reflexivity].
  - destruct (String.eqb_spec k' k0) as [->|Hk]; simpl.
    + destruct (String.eqb_spec k k0); [contradiction | reflexivity].
    + rewrite IH. reflexivity.
Qed.

Lemma lookup_dict_pop_other (d : dict) (k k' : string) :
  k <> k' -> lookup k (dict_pop d k') = lookup k d.
Proof.
  intros Hne. induction d as [|[k0 v0] d IH]; simpl; [reflexivity|].
  destruct (String.eqb_spec k' k0) as [->|Hk]; simpl.
  - destruct (String.eqb_spec k k0); [contradiction | reflexivity].
  - rewrite IH. reflexivity.
Qed.

Lemma value_eqb_VStr (v : value) (s : string) :
  value_eqb v (VStr s) = true -> v = VStr s.
Proof.
  destruct v; simpl; try discriminate.
  intros H. apply String.eqb_eq in H. now subst.
Qed.

Lemma value_eqb_VOid (v : value) (o : Bson.ObjectId) :
  value_eqb v (VOid o) = true -> v = VOid o.
Proof.
  destruct v; simpl; try discriminate.
  unfold Bson.ObjectId_eqb.
  destruct (list_eq_dec Byte.byte_eq_dec o0 o); [now subst | discriminate].
Qed.

Lemma truthy_VStr (s : string) : s <> "" -> truthy (VStr s) = true.
Proof.
  intros H. simpl. destruct (String.eqb_spec s ""); [contradiction | reflexivity].
Qed.

(** ** The "ensure slug" step *)

Lemma ensure_slug_supplied (p : ProductIn) (s : string) :
  slug p = Some s -> s <> "" ->
  ensure_slug (model_dump p) = ret (model_dump p).
Proof.
  intros Hs Hne. unfold ensure_slug, dict_get. simpl. rewrite Hs. simpl.
  destruct (String.eqb_spec s ""); [contradiction | reflexivity].
Qed.

Lemma ensure_slug_derived (p : ProductIn) :
  slug p = None \/ slug p = Some "" ->
  ensure_slug (model_dump p)
  = ret (dict_set (model_dump p) "slug" (VStr (derive_slug (title p)))).
Proof.
  intros [Hs|Hs]; unfold ensure_slug, dict_get; simpl; rewrite Hs; reflexivity.
Qed.

(** C1. The slug derived by [create_product] is the title lower-cased, then
    trimmed, then with every space turned into a hyphen, then with every
    ampersand turned into "and" ([spec_slug]); the title
    "Air & Surface Pro" gives "air-and-surface-pro"; and this is the slug
    the handler puts into the data whenever the input carries none, whatever
    the state. *)
Theorem slug_derivation_rule :
  (forall t : string, derive_slug t = spec_slug t)
  /\ derive_slug "Air & Surface Pro" = "air-and-surface-pro"
  /\ (forall (p : ProductIn) (w : world),
        slug p = None ->
        exists data,
          ensure_slug (model_dump p) w = (Return data, w)
          /\ lookup "slug" data = Some (VStr (spec_slug (title p)))).
Proof.
  split; [exact derive_slug_spec|]. split; [reflexivity|].
  intros p w Hs.
  rewrite (ensure_slug_derived p (or_introl Hs)).
  eexists. split; [reflexivity|].
  rewrite <- derive_slug_spec. reflexivity.
Qed.

(** ** The schema on a dumped input *)

Lemma as_strs_map (l : list string) : Pydantic.as_strs (map VStr l) = Some l.
Proof. induction l as [|x l IH]; simpl; [|rewrite IH]; reflexivity. Qed.

Lemma schema_on_dump (p : ProductIn) (s : option string) :
  Schemas.ProductSchema (dump_with_slug p (Pydantic.dump_opt_str s))
  = match offending_fields p with
    | [] => Return (as_product p s)
    | errs => Raise (ValidationError errs)
    end.
Proof.
  destruct p as [t de pr ca st sk im fe sl br].
  unfold Schemas.ProductSchema, dump_with_slug, offending_fields, as_product,
    Pydantic.field.
  cbn [model_dump dict_set lookup String.eqb Ascii.eqb Bool.eqb title
       description price category in_stock sku images features slug brand
       Pydantic.dump_opt_str Pydantic.dump_opt_strs].
  cbn [Pydantic.as_str Pydantic.as_float Pydantic.as_bool Schemas.nonempty
       Schemas.nonnegative].
  assert (Hs : forall o : option string,
             Pydantic.as_optional Pydantic.as_str (Pydantic.dump_opt_str o)
             = Some o) by (intros [x|]; reflexivity).
  assert (Hl : forall o : option (list string),
             Pydantic.as_optional Pydantic.as_list_str (Pydantic.dump_opt_strs o)
             = Some o).
  { intros [l|]; [|reflexivity]. simpl. rewrite as_strs_map. reflexivity. }
  rewrite !Hs, !Hl.
  destruct (String.eqb t ""), (Qle_bool 0 pr), (String.eqb ca ""); reflexivity.
Qed.

Lemma dump_with_own_slug (p : ProductIn) :
  dump_with_slug p (Pydantic.dump_opt_str (slug p)) = model_dump p.
Proof. destruct p; reflexivity. Qed.

(** What [ensure_slug] hands to the schema, in every case. *)
Lemma ensure_slug_cases (p : ProductIn) :
  exists s : option string,
    ensure_slug (model_dump p)
    = ret (dump_with_slug p (Pydantic.dump_opt_str s))
    /\ s = match slug p with
           | Some x => if String.eqb x "" then Some (derive_slug (title p))
                       else Some x
           | None => Some (derive_slug (title p))
           end.
Proof.
  destruct (slug p) as [x|] eqn:Hs.
  - destruct (String.eqb_spec x "") as [->|Hne].
    + eexists; split; [|reflexivity].
      apply ensure_slug_derived; now right.
    + eexists; split; [|reflexivity].
      rewrite (ensure_slug_supplied p x Hs Hne), <- Hs, dump_with_own_slug.
      reflexivity.
  - eexists; split; [|reflexivity].
    apply ensure_slug_derived; now left.
Qed.

Lemma offending_fields_nonempty (p : ProductIn) :
  title p = "" \/ ~ (0 <= price p)%Q \/ category p = "" ->
  offending_fields p <> [].
Proof.
  unfold offending_fields. intros [H|[H|H]].
  - rewrite H. discriminate.
  - destruct (Qle_bool 0 (price p)) eqn:E.
    + apply Qle_bool_iff in E. contradiction.
    + destruct (String.eqb (title p) ""); discriminate.
  - rewrite H. simpl.
    destruct (String.eqb (title p) ""), (Qle_bool 0 (price p)); discriminate.
Qed.

(** C2. An input with an empty title, a negative price or an empty category
    is rejected by the schema with a [ValidationError] that lists the
    offending fields, before any store call: the state is left exactly as it
    was (no document inserted, no round trip made), and the handler reports
    the error as its failure. *)
Theorem create_product_validates_first
  (py_repr : value -> string) (p : ProductIn) (w : world) :
  title p = "" \/ ~ (0 <= price p)%Q \/ category p = "" ->
  offending_fields p <> []
  /\ (forall data w1,
        ensure_slug (model_dump p) w = (Return data, w1) ->
        Schemas.ProductSchema data
        = Raise (ValidationError (offending_fields p)))
  /\ create_product py_repr p w
     = (Raise (HTTPException 500 (StrOf (ValidationError (offending_fields p)))),
        w).
Proof.
  intros Hbad.
  pose proof (offending_fields_nonempty p Hbad) as Hne.
  destruct (ensure_slug_cases p) as [s [He _]].
  split; [exact Hne|]. split.
  - intros data w1. rewrite He. unfold ret. intros [= <- <-].
    rewrite schema_on_dump.
    destruct (offending_fields p); [contradiction | reflexivity].
  - unfold create_product, try_except, bind. rewrite He. unfold ret, lift.
    rewrite schema_on_dump.
    destruct (offending_fields p); [contradiction | reflexivity].
Qed.

Lemma create_product_validates_first_witness :
  create_product no_repr
    (mkProductIn "" None 10 "Water" true None None None None (Some "Vollara"))
    (world_with [])
  = (Raise (HTTPException 500 (StrOf (ValidationError ["title"]))),
     world_with []).
Proof.
  refine (proj2 (proj2 (create_product_validates_first no_repr _ _ _))).
  left. reflexivity.
Defined.

(** ** Creating a product *)

Lemma create_document_ok (prod : Schemas.Product) (w : world) (d : database) :
  db w = Some d -> faults w = [] ->
  Database.create_document "product" prod w
  = (Return (Bson.to_str (Bson.generate (next_oid w))),
     mkWorld
       (Some (PyMongo.set_collection d "product"
                (d "product"
                 ++ [("_id", VOid (Bson.generate (next_oid w)))
                     :: Schemas.model_dump prod])))
       [] (N.succ (next_oid w))).
Proof.
  destruct w as [dbw fs n]. simpl. intros -> ->. reflexivity.
Qed.

(** The slug that ends up in the data: the supplied one when it is a
    non-empty string, the derived one otherwise. *)
Lemma create_product_inserts
  (py_repr : value -> string) (p : ProductIn) (w : world) (d : database) :
  offending_fields p = [] -> db w = Some d -> faults w = [] ->
  exists s doc,
    ensure_slug (model_dump p)
    = ret (dump_with_slug p (Pydantic.dump_opt_str (Some s)))
    /\ s = match slug p with
           | Some x => if String.eqb x "" then derive_slug (title p) else x
           | None => derive_slug (title p)
           end
    /\ products (snd (create_product py_repr p w)) = d "product" ++ [doc]
    /\ lookup "slug" doc = Some (VStr s).
Proof.
  intros Hok Hdb Hf.
  destruct (ensure_slug_cases p) as [s [He Hs]].
  assert (exists x, s = Some x) as [x ->].
  { subst s. destruct (slug p) as [y|]; [destruct (String.eqb y "")|]; eauto. }
  exists x. eexists. split; [exact He|]. split.
  { destruct (slug p) as [y|]; [destruct (String.eqb y "")|]; congruence. }
  unfold create_product, try_except, bind. rewrite He. unfold ret, lift.
  rewrite schema_on_dump, Hok, (create_document_ok _ w d Hdb Hf).
  unfold PyMongo.getitem at 1. cbn [db].
  destruct (Bson.parse (Bson.to_str (Bson.generate (next_oid w)))) as [o|].
  - unfold PyMongo.find_one, PyMongo.getitem, PyMongo.round_trip, bind, ret,
      raise, products.
    cbn [db faults snd fst]. unfold PyMongo.set_collection. simpl String.eqb.
    cbv iota. split; reflexivity.
  - unfold raise, products. cbn [db snd]. unfold PyMongo.set_collection.
    simpl String.eqb. cbv iota. split; reflexivity.
Qed.

(** C5 (as amended). For an accepted input and a working store,
    [create_product] appends one document whose slug is the supplied slug
    when that is a non-empty string, and the slug derived from the title
    when the slug is absent, null or the empty string. *)
Theorem stored_slug
  (py_repr : value -> string) (p : ProductIn) (w : world) (d : database) :
  offending_fields p = [] -> db w = Some d -> faults w = [] ->
  exists doc,
    products (snd (create_product py_repr p w)) = d "product" ++ [doc]
    /\ lookup "slug" doc
       = Some (VStr match slug p with
                    | Some s => if String.eqb s "" then derive_slug (title p)
                                else s
                    | None => derive_slug (title p)
                    end).
Proof.
  intros Hok Hdb Hf.
  destruct (create_product_inserts py_repr p w d Hok Hdb Hf)
    as [s [doc [_ [Hs [Hp Hl]]]]].
  exists doc. split; [exact Hp|]. rewrite Hl, Hs. reflexivity.
Qed.

Lemma stored_slug_witness :
  exists doc,
    products (snd (create_product no_repr (air_pro_with_slug (Some "pro-x"))
                     (world_with [water_doc])))
    = [water_doc] ++ [doc]
    /\ lookup "slug" doc = Some (VStr "pro-x").
Proof.
  apply (stored_slug no_repr (air_pro_with_slug (Some "pro-x"))
           (world_with [water_doc])
           (fun name => if String.eqb name "product" then [water_doc] else []));
    reflexivity.
Defined.

(** C5, the claim as worded fails: the caller supplies the slug [""], and
    the document stored carries the derived slug instead. *)
Lemma supplied_empty_slug_replaced :
  slug (air_pro_with_slug (Some "")) = Some ""
  /\ map (lookup "slug")
       (products (snd (create_product no_repr (air_pro_with_slug (Some ""))
                         (world_with []))))
     = [Some (VStr "air-and-surface-pro")]
  /\ Some (VStr "air-and-surface-pro") <> Some (VStr "").
Proof.
  split; [reflexivity|]. split; [vm_compute; reflexivity | discriminate].
Qed.

(** ** Serialization *)

Lemma lookup_stringify (py_repr : value -> string) (k : string) (d : dict) :
  lookup k (map (stringify_item py_repr) d)
  = match lookup k d with
    | Some (VOid o) => Some (VStr (Bson.to_str o))
    | other => other
    end.
Proof.
  induction d as [|[k' v] d IH]; simpl; [reflexivity|].
  unfold stringify_item at 1. simpl.
  destruct v; simpl; destruct (String.eqb k k'); auto.
Qed.

Lemma dict_set_middle (l r : dict) (k : string) (v v' : value) :
  ~ In k (map fst l) ->
  dict_set (l ++ (k, v) :: r) k v' = l ++ (k, v') :: r.
Proof.
  induction l as [|[k0 v0] l IH]; simpl; intros Hn.
  - rewrite String.eqb_refl. reflexivity.
  - destruct (String.eqb_spec k k0) as [->|_]; [now elim Hn; left|].
    rewrite IH by tauto. reflexivity.
Qed.

(** On distinct keys the statement-by-statement loop and the map agree. *)
Lemma stringify_loop_map (py_repr : value -> string) (d : dict) :
  NoDup (map fst d) ->
  stringify_loop py_repr d = map (stringify_item py_repr) d.
Proof.
  unfold stringify_loop.
  assert (forall rest done,
             NoDup (map fst (done ++ rest)) ->
             fold_left
               (fun doc kv =>
                  match snd kv with
                  | VOid o => dict_set doc (fst kv)
                                (VStr (py_str py_repr (VOid o)))
                  | _ => doc
                  end)
               rest (map (stringify_item py_repr) done ++ rest)
             = map (stringify_item py_repr) (done ++ rest)) as K.
  { induction rest as [|[k v] rest IH]; intros done Hnd.
    - rewrite !app_nil_r. reflexivity.
    - assert (~ In k (map fst (map (stringify_item py_repr) done))) as Hk.
      { rewrite map_app in Hnd. apply NoDup_remove_2 in Hnd.
        intros Hin. apply Hnd. apply in_or_app. left.
        rewrite map_map in Hin.
        erewrite map_ext in Hin; [exact Hin|].
        intros [k1 v1]. unfold stringify_item. destruct v1; reflexivity. }
      replace (done ++ (k, v) :: rest) with ((done ++ [(k, v)]) ++ rest) in *
        by (rewrite <- app_assoc; reflexivity).
      rewrite <- (IH (done ++ [(k, v)]) Hnd).
      cbn [fold_left snd fst]. f_equal.
      rewrite map_app. cbn [map]. rewrite <- app_assoc. cbn [app].
      destruct v; try reflexivity.
      rewrite dict_set_middle by exact Hk. reflexivity. }
  intros Hnd. exact (K d [] Hnd).
Qed.

(** A record with an [ObjectId] under [_id] gets it as a string under
    [id]; the other fields stay under their keys, an [ObjectId] among them
    as its string. *)
Lemma serialize_record
  (py_repr : value -> string) (d : dict) (o : Bson.ObjectId) :
  lookup "_id" d = Some (VOid o) ->
  exists wire,
    _serialize py_repr (Some d) = Some wire
    /\ lookup "id" wire = Some (VStr (Bson.to_str o))
    /\ (forall k, k <> "_id" -> k <> "id" ->
         lookup k wire
         = match lookup k d with
           | Some (VOid o') => Some (VStr (Bson.to_str o'))
           | other => other
           end).
Proof.
  intros Hid. unfold _serialize, doc_truthy, dict_get. rewrite Hid.
  destruct d as [|kv d]; [discriminate|].
  cbn [truthy negb]. eexists. split; [reflexivity|]. split.
  - rewrite lookup_stringify, lookup_dict_set_same. reflexivity.
  - intros k H1 H2.
    rewrite lookup_stringify, lookup_dict_set_other, lookup_dict_pop_other
      by assumption.
    reflexivity.
Qed.

Lemma serialize_none (py_repr : value -> string) :
  _serialize py_repr None = None /\ _serialize py_repr (Some []) = Some [].
Proof. split; reflexivity. Qed.

(** No value directly under a key of the result is an [ObjectId]. *)
Lemma serialize_top_level
  (py_repr : value -> string) (d wire : dict) (k : string) (o : Bson.ObjectId) :
  _serialize py_repr (Some d) = Some wire ->
  lookup k wire <> Some (VOid o).
Proof.
  unfold _serialize, doc_truthy.
  destruct d as [|kv d]; [intros [= <-]; discriminate|].
  cbn [truthy negb]. intros [= <-].
  rewrite lookup_stringify.
  match goal with |- context [lookup k ?x] => destruct (lookup k x) as [[]|] end;
    discriminate.
Qed.

(** C3, the code at a record with an identifier inside a list: the primary
    key is renamed and stringified, but the nested identifier is returned
    as it is; the scan of [_serialize] stops at the top-level values. *)
Theorem serialize_keeps_nested_ObjectId (py_repr : value -> string) :
  _serialize py_repr (Some kit_doc)
  = Some [ ("title", VStr "Starter Kit");
           ("related", VList [VOid (Bson.generate 2)]);
           ("id", VStr "000000000000000000000001") ]
  /\ has_oid (VList [VOid (Bson.generate 2)]) = true.
Proof. split; reflexivity. Qed.

(** ** Fetching one product *)

Lemma matches_one (k : string) (v : value) (doc : dict) :
  matches [(k, v)] doc = true ->
  exists x, lookup k doc = Some x /\ value_eqb x v = true.
Proof.
  unfold matches. simpl. destruct (lookup k doc) as [x|]; [|discriminate].
  rewrite andb_true_r. eauto.
Qed.

Lemma matches_str (k s : string) (doc : dict) :
  matches [(k, VStr s)] doc = true <-> lookup k doc = Some (VStr s).
Proof.
  split.
  - intros H. destruct (matches_one _ _ _ H) as [x [Hl Hx]].
    apply value_eqb_VStr in Hx. congruence.
  - intros H. unfold matches. simpl. rewrite H. simpl.
    rewrite String.eqb_refl. reflexivity.
Qed.

Lemma hd_filter_some {A} (f : A -> bool) (l : list A) (x : A) :
  hd_error (filter f l) = Some x -> In x l /\ f x = true.
Proof.
  intros H. apply filter_In.
  destruct (filter f l) as [|y r]; [discriminate|].
  injection H as ->. now left.
Qed.

Lemma hd_filter_none {A} (f : A -> bool) (l : list A) :
  hd_error (filter f l) = None -> forall x, In x l -> f x = false.
Proof.
  intros H x Hin. destruct (f x) eqn:E; [|reflexivity].
  assert (In x (filter f l)) as Hx by (apply filter_In; auto).
  destruct (filter f l); [contradiction | discriminate].
Qed.

Lemma round_trip_ok (w : world) :
  next_fault w = None -> exists w', PyMongo.round_trip w = (Return tt, w')
                                    /\ db w' = db w.
Proof.
  unfold next_fault, PyMongo.round_trip.
  destruct (faults w) as [|[m|] fs]; [eauto | discriminate | eauto].
Qed.

Lemma lookup_absent (k : string) (d : dict) :
  ~ In k (keys d) -> lookup k d = None.
Proof.
  induction d as [|[k0 v0] d IH]; simpl; [reflexivity|].
  intros H. destruct (String.eqb_spec k k0) as [->|_]; [now elim H; left|].
  apply IH. tauto.
Qed.

Lemma lookup_dict_pop_same (k : string) (d : dict) :
  NoDup (keys d) -> lookup k (dict_pop d k) = None.
Proof.
  induction d as [|[k0 v0] d IH]; simpl; [reflexivity|].
  intros H. inversion H as [|? ? Hn Hd]; subst.
  destruct (String.eqb_spec k k0) as [->|Hne].
  - apply lookup_absent. exact Hn.
  - simpl. destruct (String.eqb_spec k k0); [contradiction|]. apply IH, Hd.
Qed.

Lemma serialize_nonempty (py_repr : value -> string) (d : dict) :
  d <> [] ->
  _serialize py_repr (Some d)
  = Some (map (stringify_item py_repr)
            (if truthy (dict_get d "_id")
             then dict_set (dict_pop d "_id") "id"
                    (VStr (py_str py_repr (dict_get d "_id")))
             else d)).
Proof. destruct d; [contradiction | reflexivity]. Qed.

(** What [_serialize] returns for a record is its wire form. *)
Lemma serialize_wire_record (py_repr : value -> string) (doc : dict) :
  doc <> [] ->
  exists wire,
    _serialize py_repr (Some doc) = Some wire /\ wire_record doc wire.
Proof.
  intros Hne. rewrite (serialize_nonempty py_repr doc Hne).
  eexists. split; [reflexivity|]. split; [|split].
  - intros k o. rewrite lookup_stringify.
    match goal with |- context [lookup k ?x] => destruct (lookup k x) as [[]|] end;
      discriminate.
  - intros k H1 H2. rewrite lookup_stringify.
    destruct (truthy (dict_get doc "_id")).
    + rewrite lookup_dict_set_other, lookup_dict_pop_other by assumption.
      destruct (lookup k doc) as [[]|]; reflexivity.
    + destruct (lookup k doc) as [[]|]; reflexivity.
  - intros o Ho. unfold dict_get. rewrite Ho. cbn [truthy]. split.
    + rewrite lookup_stringify, lookup_dict_set_same. reflexivity.
    + intros Hnd. rewrite lookup_stringify.
      rewrite lookup_dict_set_other by discriminate.
      rewrite lookup_dict_pop_same by exact Hnd. reflexivity.
Qed.

Lemma mongo_matches_nil (doc : dict) : mongo_matches [] doc = true.
Proof. reflexivity. Qed.

(** The driver's condition on one field, for a value that is neither
    [None] nor an array. *)
Lemma mongo_matches_holds (k : string) (v : value) (doc : dict) :
  (forall x, value_eqb x v = true <-> x = v) ->
  v <> VNone -> (forall l, v <> VList l) ->
  mongo_matches [(k, v)] doc = true <-> field_holds k v doc.
Proof.
  intros Heq Hn Hl. unfold mongo_matches, field_holds.
  cbn [forallb fst snd]. rewrite andb_true_r.
  destruct (lookup k doc) as [x|]; cbn [field_matches].
  - assert (forall y, (forall l, y <> VList l) ->
              value_eqb y v = true
              <-> (Some y = Some v
                   \/ exists l, Some y = Some (VList l) /\ In v l)) as K.
    { intros y Hy. rewrite Heq. split.
      - intros ->. now left.
      - intros [[= ->]|[l [[= ->] _]]]; [reflexivity | now elim (Hy l)]. }
    destruct x; try (apply K; intros l0; discriminate).
    rewrite orb_true_iff, existsb_exists. split.
    + intros [H|[x [Hin Hx]]].
      * apply Heq in H. now elim (Hl l).
      * apply Heq in Hx. subst x. right. eauto.
    + intros [[= H]|[l0 [[= <-] Hin]]]; [now elim (Hl l)|].
      right. exists v. split; [exact Hin | now apply Heq].
  - split.
    + intros H. apply Heq in H. now elim Hn.
    + intros [H|[l [H _]]]; discriminate.
Qed.

Lemma mongo_matches_str (k s : string) (doc : dict) :
  mongo_matches [(k, VStr s)] doc = true <-> field_holds k (VStr s) doc.
Proof.
  apply mongo_matches_holds; try discriminate.
  intros x. split; [apply value_eqb_VStr|].
  intros ->. simpl. apply String.eqb_refl.
Qed.

Lemma mongo_matches_oid (k : string) (o : Bson.ObjectId) (doc : dict) :
  mongo_matches [(k, VOid o)] doc = true <-> field_holds k (VOid o) doc.
Proof.
  apply mongo_matches_holds; try discriminate.
  intros x. split; [apply value_eqb_VOid|].
  intros ->. simpl. unfold Bson.ObjectId_eqb.
  destruct (list_eq_dec Byte.byte_eq_dec o o); [reflexivity | contradiction].
Qed.

Lemma field_holds_nonempty (k : string) (v : value) (doc : dict) :
  field_holds k v doc -> doc <> [].
Proof. intros [H|[l [H _]]] ->; discriminate. Qed.

(** With a connection and no fault, the handler's result is decided by the
    first record that the query on the slug selects. *)
Lemma get_product_eval
  (py_repr : value -> string) (slug : string) (w : world) (d : database) :
  db w = Some d -> next_fault w = None ->
  fst (get_product py_repr slug w)
  = match hd_error (filter (mongo_matches [("slug", VStr slug)])
                      (d "product")) with
    | Some doc => Return (_serialize py_repr (Some doc))
    | None => Raise (HTTPException 404 (Text "Product not found"))
    end.
Proof.
  intros Hdb Hf.
  destruct (round_trip_ok w Hf) as [w' [Hr _]].
  unfold get_product, try_except, PyMongo.find_one, bind, PyMongo.getitem.
  rewrite Hdb, Hr. unfold ret.
  destruct (hd_error (filter (mongo_matches [("slug", VStr slug)])
                        (d "product")))
    as [doc|] eqn:E; [|reflexivity].
  apply hd_filter_some in E. destruct E as [_ E].
  apply mongo_matches_str, field_holds_nonempty in E.
  destruct doc as [|kv doc]; [contradiction|]. reflexivity.
Qed.

(** C4. [get_product].  A record carries the slug when its [slug] field is
    that string, or an array holding it, which the store's query selects as
    well.  When such a record exists, the handler returns the wire form of
    one of them: identifiers as strings, the key under [id] and no longer
    under [_id], the other fields as stored.  When none exists, the outcome
    is the 404 "Product not found", which the handler re-raises as it is.
    And a 500 arises exactly when the store fails, by a missing connection
    or a fault of the round trip. *)
Theorem get_product_outcomes
  (py_repr : value -> string) (slug : string) (w : world) :
  (forall d, db w = Some d -> next_fault w = None ->
     (exists doc, In doc (d "product")
                  /\ field_holds "slug" (VStr slug) doc) ->
     exists doc wire,
       In doc (d "product") /\ field_holds "slug" (VStr slug) doc
       /\ fst (get_product py_repr slug w) = Return (Some wire)
       /\ wire_record doc wire)
  /\ (forall d, db w = Some d -> next_fault w = None ->
       (forall doc, In doc (d "product") ->
                    ~ field_holds "slug" (VStr slug) doc) ->
       fst (get_product py_repr slug w)
       = Raise (HTTPException 404 (Text "Product not found")))
  /\ ((exists dt, fst (get_product py_repr slug w)
                  = Raise (HTTPException 500 dt))
      <-> db w = None \/ next_fault w <> None).
Proof.
  split; [|split].
  - intros d Hdb Hf [doc [Hin Hl]].
    rewrite (get_product_eval py_repr slug w d Hdb Hf).
    destruct (hd_error (filter (mongo_matches [("slug", VStr slug)])
                          (d "product")))
      as [doc'|] eqn:E.
    + apply hd_filter_some in E. destruct E as [Hin' Hm].
      apply mongo_matches_str in Hm.
      destruct (serialize_wire_record py_repr doc'
                  (field_holds_nonempty _ _ _ Hm)) as [wire [Hw Hwire]].
      exists doc', wire. rewrite Hw. auto.
    + apply (hd_filter_none _ _ E) in Hin.
      apply mongo_matches_str in Hl. congruence.
  - intros d Hdb Hf Hno.
    rewrite (get_product_eval py_repr slug w d Hdb Hf).
    destruct (hd_error (filter (mongo_matches [("slug", VStr slug)])
                          (d "product")))
      as [doc'|] eqn:E; [|reflexivity].
    apply hd_filter_some in E. destruct E as [Hin' Hm].
    apply mongo_matches_str in Hm. now elim (Hno doc' Hin').
  - split.
    + intros [dt H].
      destruct (db w) as [d|] eqn:Hdb; [|now left]. right.
      intros Hf. rewrite (get_product_eval py_repr slug w d Hdb Hf) in H.
      destruct (hd_error _) in H; discriminate.
    + intros [Hdb|Hf].
      * eexists. unfold get_product, try_except, PyMongo.find_one, bind,
          PyMongo.getitem. rewrite Hdb. reflexivity.
      * destruct (db w) as [d|] eqn:Hdb.
        -- unfold next_fault in Hf.
           unfold get_product, try_except, PyMongo.find_one, bind,
             PyMongo.getitem, PyMongo.round_trip.
           rewrite Hdb.
           destruct (faults w) as [|[m|] fs]; try (now elim Hf).
           eexists. reflexivity.
        -- eexists. unfold get_product, try_except, PyMongo.find_one, bind,
             PyMongo.getitem. rewrite Hdb. reflexivity.
Qed.

Lemma get_product_outcomes_witness :
  (exists doc wire,
     In doc [kit_doc; bundle_doc]
     /\ field_holds "slug" (VStr "kit") doc
     /\ fst (get_product no_repr "kit" (world_with [kit_doc; bundle_doc]))
        = Return (Some wire)
     /\ wire_record doc wire)
  /\ fst (get_product no_repr "no-such-slug" (world_with [water_doc]))
     = Raise (HTTPException 404 (Text "Product not found")).
Proof.
  split.
  - apply (proj1 (get_product_outcomes no_repr "kit"
                    (world_with [kit_doc; bundle_doc]))
             (fun name => if String.eqb name "product"
                          then [kit_doc; bundle_doc] else []));
      [reflexivity | reflexivity |].
    exists bundle_doc. split; [right; now left|].
    right. eexists. split; [reflexivity | right; now left].
  - apply (proj1 (proj2 (get_product_outcomes no_repr "no-such-slug"
                           (world_with [water_doc])))
             (fun name => if String.eqb name "product" then [water_doc] else []));
      [reflexivity | reflexivity |].
    intros doc [<-|[]] [H|[l [H _]]]; discriminate.
Defined.

(** ** Defaults of the input model *)

Ltac split_field :=
  match goal with
  | |- context [Pydantic.offending ?k ?r] =>
      let E := fresh "E" in
      destruct r eqn:E; cbn [Pydantic.offending app];
      [| let H := fresh in intros H; discriminate H]
  end.

Example as_bool_conversions :
  Pydantic.as_bool (VStr "YES") = Some true
  /\ Pydantic.as_bool (VStr "off") = Some false
  /\ Pydantic.as_bool (VNum 1) = Some true
  /\ Pydantic.as_bool (VNum 2) = None
  /\ Pydantic.as_bool (VStr "yes ") = None
  /\ Pydantic.as_bool VNone = None.
Proof. repeat split; reflexivity. Qed.

(** C6. For an input that the class accepts, whatever the library does to
    validate the price: [in_stock] is true and [brand] is "Vollara" when the
    field is absent; a field that is present is never replaced by the
    default, [in_stock] being the supplied value as a [bool] (a [bool]
    itself, or what the library converts to one) and [brand] the supplied
    string or null, so a supplied empty [brand] stays the empty string. *)
Theorem ProductIn_defaults
  (to_float : value -> option Q) (kw : dict) (p : ProductIn) :
  ProductIn_with to_float kw = Return p ->
  (lookup "in_stock" kw = None -> in_stock p = true)
  /\ (forall v, lookup "in_stock" kw = Some v ->
                Pydantic.as_bool v = Some (in_stock p))
  /\ (forall b, lookup "in_stock" kw = Some (VBool b) -> in_stock p = b)
  /\ (lookup "brand" kw = None -> brand p = Some "Vollara")
  /\ (forall v, lookup "brand" kw = Some v ->
                v = Pydantic.dump_opt_str (brand p))
  /\ (lookup "brand" kw = Some (VStr "") -> brand p = Some "").
Proof.
  unfold ProductIn_with. repeat split_field.
  cbn [Pydantic.value_of]. intros [= <-]. cbn [in_stock brand].
  unfold Pydantic.field in E3, E8.
  repeat split.
  - intros H. rewrite H in E3. congruence.
  - intros v H. rewrite H in E3. exact E3.
  - intros b0 H. rewrite H in E3. cbn in E3. congruence.
  - intros H. rewrite H in E8. congruence.
  - intros v H. rewrite H in E8.
    destruct v; cbn in E8; try discriminate E8;
      injection E8 as <-; reflexivity.
  - intros H. rewrite H in E8. cbn in E8. congruence.
Qed.

Lemma ProductIn_defaults_witness :
  let kw := [ ("title", VStr "Pitcher"); ("price", VStr "25");
              ("category", VStr "Water"); ("brand", VStr "") ] in
  let kw_no := ("in_stock", VStr "No") :: kw in
  let to_float := fun v => match v with
                           | VNum q => Some q
                           | VStr "25" => Some 25
                           | _ => None
                           end in
  let p := mkProductIn "Pitcher" None 25 "Water" true None None None None
             (Some "") in
  let p_no := mkProductIn "Pitcher" None 25 "Water" false None None None None
                (Some "") in
  ProductIn_with to_float kw = Return p
  /\ in_stock p = true /\ brand p = Some ""
  /\ ProductIn_with to_float kw_no = Return p_no
  /\ Pydantic.as_bool (VStr "No") = Some (in_stock p_no).
Proof.
  intros kw kw_no to_float p p_no.
  assert (H : ProductIn_with to_float kw = Return p) by reflexivity.
  assert (H' : ProductIn_with to_float kw_no = Return p_no) by reflexivity.
  split; [exact H|]. split; [|split; [|split; [exact H'|]]].
  - apply (proj1 (ProductIn_defaults to_float kw p H)). reflexivity.
  - apply (proj2 (proj2 (proj2 (proj2 (proj2
             (ProductIn_defaults to_float kw p H)))))).
    reflexivity.
  - apply (proj1 (proj2 (ProductIn_defaults to_float kw_no p_no H'))).
    reflexivity.
Defined.

(** ** Listing products *)

Lemma matches_nil (doc : dict) : matches [] doc = true.
Proof. reflexivity. Qed.

Lemma filter_all {A} (f : A -> bool) (l : list A) :
  (forall x, f x = true) -> filter f l = l.
Proof.
  intros H. induction l as [|x l IH]; simpl; [reflexivity|].
  rewrite H, IH. reflexivity.
Qed.

Lemma in_firstn {A} (n : nat) (l : list A) (x : A) :
  In x (firstn n l) -> In x l.
Proof.
  revert l. induction n as [|n IH]; intros [|y l]; simpl; try tauto.
  intros [H|H]; [now left | right; auto].
Qed.

(** The fields other than the key survive serialization. *)
Lemma serialize_fields (py_repr : value -> string) (d : dict) :
  d <> [] ->
  exists wire,
    _serialize py_repr (Some d) = Some wire
    /\ (forall k, k <> "_id" -> k <> "id" ->
         lookup k wire
         = match lookup k d with
           | Some (VOid o') => Some (VStr (Bson.to_str o'))
           | other => other
           end).
Proof.
  intros Hne. unfold _serialize, doc_truthy.
  destruct d as [|kv d]; [contradiction|].
  cbn [truthy negb]. eexists. split; [reflexivity|].
  intros k H1 H2. rewrite lookup_stringify.
  destruct (truthy (dict_get (kv :: d) "_id")); [|reflexivity].
  rewrite lookup_dict_set_other, lookup_dict_pop_other by assumption.
  reflexivity.
Qed.

(** What [get_documents] returns, whenever it returns. *)
Lemma get_documents_returns
  (filt : dict) (limit : option Z) (w w' : world) (docs : list dict) :
  Database.get_documents "product" filt limit w = (Return docs, w') ->
  forall doc, In doc docs -> In doc (products w) /\ matches filt doc = true.
Proof.
  unfold Database.get_documents, products.
  destruct (db w) as [d|] eqn:Hdb; [|discriminate].
  unfold try_except, Database.find, bind, PyMongo.getitem,
    PyMongo.round_trip.
  rewrite Hdb.
  assert (forall doc, In doc (match limit with
                              | Some n => firstn (Z.to_nat n)
                                            (filter (matches filt) (d "product"))
                              | None => filter (matches filt) (d "product")
                              end) ->
                      In doc (d "product") /\ matches filt doc = true) as Hin.
  { intros doc H. apply filter_In.
    destruct limit; [apply in_firstn in H|]; exact H. }
  destruct (faults w) as [|[m|] fs]; unfold ret, raise; cbn;
    try discriminate; intros [= <- _]; exact Hin.
Qed.

(** C7 (as amended). For a non-empty category string, every record that
    [list_products] returns carries exactly that string in its [category]
    field. *)
Theorem list_products_category_exact
  (py_repr : value -> string) (limit : option Z) (c : string)
  (w w' : world) (records : list (option dict)) :
  c <> "" ->
  list_products py_repr limit (Some c) w = (Return records, w') ->
  forall r, In r records ->
    exists wire, r = Some wire /\ lookup "category" wire = Some (VStr c).
Proof.
  intros Hc. unfold list_products, try_except, bind.
  cbn [Pydantic.dump_opt_str]. rewrite (truthy_VStr c Hc). cbn [dict_set].
  destruct (Database.get_documents "product" [("category", VStr c)] limit w)
    as [[docs|e] w1] eqn:E; [|discriminate].
  unfold ret. intros [= <- _] r Hr.
  apply in_map_iff in Hr. destruct Hr as [doc [<- Hin]].
  destruct (get_documents_returns _ _ _ _ _ E doc Hin) as [_ Hm].
  apply matches_str in Hm.
  assert (doc <> []) as Hne by (intros ->; discriminate).
  destruct (serialize_fields py_repr doc Hne) as [wire [Hw Hk]].
  exists wire. split; [exact Hw|].
  rewrite Hk, Hm by discriminate. reflexivity.
Qed.

Lemma list_products_category_exact_witness :
  exists wire,
    _serialize no_repr (Some water_doc) = Some wire
    /\ lookup "category" wire = Some (VStr "Water").
Proof.
  apply (list_products_category_exact no_repr None "Water"
           (world_with [kit_doc; water_doc])
           (world_with [kit_doc; water_doc])
           [_serialize no_repr (Some water_doc)]);
    [discriminate | reflexivity | now left].
Defined.

(** C7, the claim as worded fails at the empty category string: the listing
    returns a record whose category is "Water", not the empty string. *)
Lemma list_products_empty_category_unfiltered :
  exists wire,
    fst (list_products no_repr None (Some "") (world_with [water_doc]))
    = Return [Some wire]
    /\ lookup "category" wire = Some (VStr "Water")
    /\ lookup "category" wire <> Some (VStr "").
Proof.
  eexists. split; [reflexivity|]. split; [reflexivity | discriminate].
Qed.

(** C10. An empty [category] parameter is treated as an absent one: the two
    calls are the same computation, and with a working store the result is
    every product (up to the limit), whatever its category. *)
Theorem list_products_empty_category_is_absent
  (py_repr : value -> string) (limit : option Z) (w : world) :
  list_products py_repr limit (Some "") w = list_products py_repr limit None w
  /\ (forall d, db w = Some d -> next_fault w = None ->
        fst (list_products py_repr limit (Some "") w)
        = Return (map (fun doc => _serialize py_repr (Some doc))
                      match limit with
                      | None => d "product"
                      | Some n => firstn (Z.to_nat n) (d "product")
                      end)).
Proof.
  split; [reflexivity|].
  intros d Hdb Hf. destruct (round_trip_ok w Hf) as [w1 [Hr _]].
  unfold list_products, try_except, bind. cbn [Pydantic.dump_opt_str truthy].
  cbn [String.eqb negb].
  unfold Database.get_documents. rewrite Hdb.
  unfold try_except, Database.find, bind, PyMongo.getitem. rewrite Hdb, Hr.
  unfold ret. cbn [fst].
  rewrite (filter_all _ _ matches_nil). reflexivity.
Qed.

Lemma list_products_empty_category_is_absent_witness :
  fst (list_products no_repr None (Some "") (world_with [kit_doc; water_doc]))
  = Return (map (fun doc => _serialize no_repr (Some doc)) [kit_doc; water_doc]).
Proof.
  apply (proj2 (list_products_empty_category_is_absent no_repr None
                  (world_with [kit_doc; water_doc]))
           (fun name => if String.eqb name "product"
                        then [kit_doc; water_doc] else []));
    reflexivity.
Defined.

(** ** Seeding *)

Lemma try_except_pass (c : M unit) (w : world) :
  fst (try_except c (fun _ => ret tt) w) = Return tt.
Proof.
  unfold try_except. destruct (c w) as [[[]|e] w']; reflexivity.
Qed.

(** The three inputs of the seed list are accepted by [ProductIn]. *)
Lemma samples_built (w : world) :
  exists s1 s2 s3,
    build_all (map ProductIn_init samples_kw) w = (Return [s1; s2; s3], w)
    /\ map slug [s1; s2; s3]
       = [Some "air-and-surface-pro"; Some "freshair-personal";
          Some "living-water"]
    /\ map offending_fields [s1; s2; s3] = [[]; []; []].
Proof.
  do 3 eexists. split; [reflexivity|]. split; reflexivity.
Qed.

(** One turn of the seeding loop on a working store. *)
Lemma seed_step (s : ProductIn) (x : string) (w : world) (d : database) :
  offending_fields s = [] -> slug s = Some x ->
  db w = Some d -> faults w = [] ->
  exists doc,
    (p <- lift (Schemas.ProductSchema (model_dump s)) ;;
     Database.create_document "product" p ;;;
     ret tt) w
    = (Return tt,
       mkWorld (Some (PyMongo.set_collection d "product" (d "product" ++ [doc])))
               [] (N.succ (next_oid w)))
    /\ lookup "slug" doc = Some (VStr x).
Proof.
  intros Hok Hs Hdb Hf. unfold bind, lift.
  rewrite <- (dump_with_own_slug s), schema_on_dump, Hok.
  rewrite (create_document_ok _ w d Hdb Hf).
  eexists. split; [reflexivity|]. rewrite Hs. reflexivity.
Qed.

Lemma set_collection_same (d : database) (name : string) (docs : list dict) :
  PyMongo.set_collection d name docs name = docs.
Proof. unfold PyMongo.set_collection. rewrite String.eqb_refl. reflexivity. Qed.

(** C8. [seed_products] never raises, whatever the state; it leaves the
    store as it was when the product collection is not empty; and on an
    empty collection of a working store it inserts three records, whose
    slugs are [air-and-surface-pro], [freshair-personal] and
    [living-water]. *)
Theorem seed_products_behaviour (w : world) :
  fst (seed_products w) = Return tt
  /\ (products w <> [] -> db (snd (seed_products w)) = db w)
  /\ (db w <> None -> products w = [] -> faults w = [] ->
      map (lookup "slug") (products (snd (seed_products w)))
      = [ Some (VStr "air-and-surface-pro");
          Some (VStr "freshair-personal");
          Some (VStr "living-water") ]).
Proof.
  split; [apply try_except_pass|]. split.
  - unfold products. destruct (db w) as [d|] eqn:Hdb; [|intros H; now elim H].
    intros Hne.
    unfold seed_products, try_except, seed_body. rewrite Hdb.
    unfold PyMongo.count_documents, bind, PyMongo.getitem, PyMongo.round_trip.
    rewrite Hdb, (filter_all _ _ mongo_matches_nil).
    destruct (d "product") as [|doc docs] eqn:Hp; [now elim Hne|].
    destruct (faults w) as [|[m|] fs]; unfold ret; cbn; try reflexivity;
      exact Hdb.
  - destruct w as [dbw fs n]. unfold products. cbn [db faults].
    destruct dbw as [d|]; [|intros H; now elim H].
    intros _ Hp ->.
    destruct (samples_built (mkWorld (Some d) [] n)) as
      [s1 [s2 [s3 [Hb [Hs Ho]]]]].
    injection Hs as Hs1 Hs2 Hs3. injection Ho as Ho1 Ho2 Ho3.
    destruct (seed_step s1 _ (mkWorld (Some d) [] n) d Ho1 Hs1 eq_refl eq_refl)
      as [d1 [E1 L1]].
    destruct (seed_step s2 _
                (mkWorld (Some (PyMongo.set_collection d "product"
                                  (d "product" ++ [d1]))) [] (N.succ n))
                _ Ho2 Hs2 eq_refl eq_refl) as [d2 [E2 L2]].
    destruct (seed_step s3 _
                (mkWorld
                   (Some (PyMongo.set_collection
                            (PyMongo.set_collection d "product"
                               (d "product" ++ [d1]))
                            "product"
                            (PyMongo.set_collection d "product"
                               (d "product" ++ [d1]) "product" ++ [d2])))
                   [] (N.succ (N.succ n)))
                _ Ho3 Hs3 eq_refl eq_refl) as [d3 [E3 L3]].
    cbn [next_oid] in E1, E2, E3.
    unfold seed_products, try_except, seed_body. cbn [db].
    unfold PyMongo.count_documents, bind at 1 2 3, PyMongo.getitem,
      PyMongo.round_trip.
    cbn [db faults]. rewrite (filter_all _ _ mongo_matches_nil), Hp. unfold ret at 1.
    cbn [List.length N.of_nat N.eqb].
    unfold bind at 1. rewrite Hb. cbn [for_each].
    unfold bind at 1. rewrite E1.
    unfold bind at 1. rewrite E2.
    unfold bind at 1. rewrite E3.
    unfold ret. cbn [snd db].
    rewrite !set_collection_same, Hp. cbn [app map].
    rewrite L1, L2, L3. reflexivity.
Qed.

Lemma seed_products_behaviour_witness :
  map (lookup "slug") (products (snd (seed_products (world_with []))))
  = [ Some (VStr "air-and-surface-pro");
      Some (VStr "freshair-personal");
      Some (VStr "living-water") ]
  /\ db (snd (seed_products (world_with [water_doc])))
     = db (world_with [water_doc]).
Proof.
  split.
  - apply (proj2 (proj2 (seed_products_behaviour (world_with []))));
      [discriminate | reflexivity | reflexivity].
  - apply (proj1 (proj2 (seed_products_behaviour (world_with [water_doc])))).
    discriminate.
Defined.

(** ** Identifiers *)

Lemma hex_value_facts (c : ascii) (h : N) :
  Bson.hex_value c = Some h ->
  (h < 16)%N /\ Bson.is_ascii_space c = false
  /\ Bson.hex_digit h = PyStr.lower_char c.
Proof.
  intros H.
  destruct c as [[] [] [] [] [] [] [] []]; cbv in H; try discriminate H;
    injection H as <-; repeat split; reflexivity.
Qed.

Lemma byte_of_digits (h l : N) (x : Byte.byte) :
  (h < 16)%N -> (l < 16)%N -> Byte.of_N (16 * h + l) = Some x ->
  (Byte.to_N x / 16 = h)%N /\ (Byte.to_N x mod 16 = l)%N.
Proof.
  intros Hh Hl Hx. apply Byte.to_of_N in Hx. rewrite Hx. split.
  - symmetry. apply (N.div_unique _ 16 h l); [assumption | reflexivity].
  - symmetry. apply (N.mod_unique _ 16 h l); [assumption | reflexivity].
Qed.

(** On a string of hexadecimal digits, printing the parsed bytes gives the
    string in lower case. *)
Lemma hexlify_fromhex_pairs (s : string) :
  (forall b, Bson.all_hex s = true -> Bson.fromhex s = Some b ->
             Bson.hexlify b = PyStr.lower s)
  /\ (forall c b, Bson.all_hex (String c s) = true ->
                  Bson.fromhex (String c s) = Some b ->
                  Bson.hexlify b = PyStr.lower (String c s)).
Proof.
  induction s as [|a s [IH1 IH2]].
  - split.
    + intros b _ [= <-]. reflexivity.
    + intros c b. cbn [Bson.all_hex Bson.fromhex].
      destruct (Bson.hex_value c) as [h|] eqn:Hc; [|discriminate].
      destruct (hex_value_facts c h Hc) as [_ [-> _]]. discriminate.
  - split; [exact (IH2 a)|].
    intros c b. cbn [Bson.all_hex Bson.fromhex].
    destruct (Bson.hex_value c) as [h|] eqn:Hc; [|discriminate].
    destruct (Bson.hex_value a) as [l|] eqn:Ha; [|discriminate].
    destruct (hex_value_facts c h Hc) as [Hh [-> Ec]].
    destruct (hex_value_facts a l Ha) as [Hl [_ Ea]].
    intros Hall.
    destruct (Byte.of_N (16 * h + l)) as [x|] eqn:Hx; [|discriminate].
    destruct (Bson.fromhex s) as [r|] eqn:Hr; [|discriminate].
    intros [= <-]. cbn [Bson.hexlify PyStr.lower].
    destruct (byte_of_digits h l x Hh Hl Hx) as [-> ->].
    rewrite Ec, Ea, (IH1 r Hall eq_refl). reflexivity.
Qed.

Lemma to_str_parse (s : string) (oid : Bson.ObjectId) :
  Bson.all_hex s = true -> Bson.parse s = Some oid ->
  Bson.to_str oid = PyStr.lower s.
Proof.
  unfold Bson.parse, Bson.to_str. intros Hall.
  destruct (Nat.eqb (String.length s) 24); [|discriminate].
  intros H. exact (proj1 (hexlify_fromhex_pairs s) oid Hall H).
Qed.

Lemma fromhex_byte (x : Byte.byte) (s : string) :
  Bson.fromhex
    (String (Bson.hex_digit (Byte.to_N x / 16))
       (String (Bson.hex_digit (Byte.to_N x mod 16)) s))
  = match Bson.fromhex s with
    | Some r => Some (x :: r)
    | None => None
    end.
Proof. destruct x; reflexivity. Qed.

Lemma fromhex_hexlify (b : list Byte.byte) :
  Bson.fromhex (Bson.hexlify b) = Some b.
Proof.
  induction b as [|x b IH]; [reflexivity|].
  cbn [Bson.hexlify]. rewrite fromhex_byte, IH. reflexivity.
Qed.

Lemma length_hexlify (b : list Byte.byte) :
  String.length (Bson.hexlify b) = (2 * List.length b)%nat.
Proof. induction b as [|x b IH]; simpl; [reflexivity | rewrite IH; lia]. Qed.

(** The string [create_document] returns parses back to the identifier it
    was printed from. *)
Lemma parse_generated (n : N) :
  Bson.parse (Bson.to_str (Bson.generate n)) = Some (Bson.generate n).
Proof.
  unfold Bson.parse, Bson.to_str. rewrite length_hexlify.
  cbn [Bson.generate map List.length Nat.mul Nat.add Nat.eqb].
  apply fromhex_hexlify.
Qed.











(** Capital digits.  [ObjectId] would also accept them and print them back
    in lower case; no call of [main.py] passes such a string. *)
Lemma capital_id_not_round_tripped :
  exists oid wire,
    Bson.parse capital_id = Some oid
    /\ fst (PyMongo.find_one "product" [("_id", VOid oid)]
              (world_with [capital_doc]))
       = Return (Some capital_doc)
    /\ _serialize no_repr (Some capital_doc) = Some wire
    /\ lookup "id" wire = Some (VStr "aaaaaaaaaaaaaaaaaaaaaaaa")
    /\ lookup "id" wire <> Some (VStr capital_id).
Proof.
  do 2 eexists. split; [reflexivity|]. split; [reflexivity|].
  split; [reflexivity|]. split; [reflexivity | discriminate].
Qed.

(* ===================================================================== *)
(** * Further properties *)
(* ===================================================================== *)

(** ** The derived slug *)

Lemma is_space_lower_char (c : ascii) :
  PyStr.is_space (PyStr.lower_char c) = PyStr.is_space c.
Proof. destruct c as [[] [] [] [] [] [] [] []]; reflexivity. Qed.

Lemma all_chars_app (f : ascii -> bool) (a b : string) :
  all_chars f (a ++ b) = all_chars f a && all_chars f b.
Proof.
  induction a as [|x a IH]; simpl; [reflexivity|].
  rewrite IH, andb_assoc. reflexivity.
Qed.

Lemma all_chars_lower :
  forall t, all_chars (fun c => Ascii.eqb (PyStr.lower_char c) c)
                      (PyStr.lower t) = true.
Proof.
  induction t as [|c t IH]; simpl; [reflexivity|].
  rewrite IH, andb_true_r. apply Ascii.eqb_eq.
  destruct c as [[] [] [] [] [] [] [] []]; reflexivity.
Qed.

Lemma all_chars_lstrip (f : ascii -> bool) (s : string) :
  all_chars f s = true -> all_chars f (PyStr.lstrip s) = true.
Proof.
  induction s as [|c s IH]; simpl; [auto|].
  intros H. apply andb_true_iff in H. destruct H as [Hc Hs].
  destruct (PyStr.is_space c); [auto|]. simpl. now rewrite Hc, Hs.
Qed.

Lemma all_chars_rstrip (f : ascii -> bool) (s : string) :
  all_chars f s = true -> all_chars f (PyStr.rstrip s) = true.
Proof.
  induction s as [|c s IH]; simpl; [auto|].
  intros H. apply andb_true_iff in H. destruct H as [Hc Hs].
  specialize (IH Hs).
  destruct (PyStr.rstrip s) as [|y r].
  - destruct (PyStr.is_space c); simpl; [reflexivity|].
    now rewrite Hc.
  - cbn [all_chars] in *. now rewrite Hc, IH.
Qed.

Lemma all_chars_subst (f g : ascii -> bool) (c : ascii) (t s : string) :
  all_chars f s = true -> all_chars g t = true ->
  (forall x, f x = true -> x <> c -> g x = true) ->
  all_chars g (PyStr.subst_char c t s) = true.
Proof.
  intros Hs Ht Hfg. induction s as [|x s IH]; simpl; [reflexivity|].
  simpl in Hs. apply andb_true_iff in Hs. destruct Hs as [Hx Hs].
  destruct (Ascii.eqb_spec x c) as [->|Hne].
  - rewrite all_chars_app, Ht, IH by assumption. reflexivity.
  - simpl. rewrite (Hfg x Hx Hne), IH by assumption. reflexivity.
Qed.

(** The characters of a derived slug. *)
Lemma derived_slug_chars (t : string) :
  all_chars slug_char (derive_slug t) = true.
Proof.
  unfold derive_slug. rewrite !replace_char.
  apply (all_chars_subst
           (fun c => negb (Ascii.eqb c " ") && Ascii.eqb (PyStr.lower_char c) c)
           slug_char "&" "and").
  - apply (all_chars_subst
             (fun c => Ascii.eqb (PyStr.lower_char c) c) _ " " "-").
    + apply all_chars_rstrip, all_chars_lstrip, all_chars_lower.
    + reflexivity.
    + intros x Hx Hne. rewrite Hx, andb_true_r.
      destruct (Ascii.eqb_spec x " "); [contradiction | reflexivity].
  - reflexivity.
  - intros x Hx Hne. unfold slug_char.
    apply andb_true_iff in Hx. destruct Hx as [H1 H2]. rewrite H1, H2.
    destruct (Ascii.eqb_spec x "&"); [contradiction | reflexivity].
Qed.

(** X1. A derived slug holds no space, no ampersand and no character that
    [str.lower] would change (so no capital letter). *)
Theorem derive_slug_chars (t : string) :
  all_chars slug_char (derive_slug t) = true.
Proof.
  unfold derive_slug. rewrite !replace_char.
  apply (all_chars_subst
           (fun c => negb (Ascii.eqb c " ") && Ascii.eqb (PyStr.lower_char c) c)
           slug_char "&" "and").
  - apply (all_chars_subst
             (fun c => Ascii.eqb (PyStr.lower_char c) c) _ " " "-").
    + apply all_chars_rstrip, all_chars_lstrip, all_chars_lower.
    + reflexivity.
    + intros x Hx Hne. rewrite Hx, andb_true_r.
      destruct (Ascii.eqb_spec x " "); [contradiction | reflexivity].
  - reflexivity.
  - intros x Hx Hne. unfold slug_char.
    apply andb_true_iff in Hx. destruct Hx as [H1 H2]. rewrite H1, H2.
    destruct (Ascii.eqb_spec x "&"); [contradiction | reflexivity].
Qed.

Lemma lower_fixed (s : string) :
  all_chars (fun c => Ascii.eqb (PyStr.lower_char c) c) s = true ->
  PyStr.lower s = s.
Proof.
  induction s as [|c s IH]; simpl; [reflexivity|].
  intros H. apply andb_true_iff in H. destruct H as [Hc Hs].
  apply Ascii.eqb_eq in Hc. rewrite Hc, IH by assumption. reflexivity.
Qed.

Lemma subst_char_absent (c : ascii) (t s : string) :
  all_chars (fun x => negb (Ascii.eqb x c)) s = true ->
  PyStr.subst_char c t s = s.
Proof.
  induction s as [|x s IH]; simpl; [reflexivity|].
  intros H. apply andb_true_iff in H. destruct H as [Hx Hs].
  destruct (Ascii.eqb x c); [discriminate|].
  rewrite IH by assumption. reflexivity.
Qed.

Lemma all_chars_weaken (f g : ascii -> bool) (s : string) :
  (forall x, f x = true -> g x = true) ->
  all_chars f s = true -> all_chars g s = true.
Proof.
  intros Hfg. induction s as [|c s IH]; simpl; [reflexivity|].
  intros H. apply andb_true_iff in H. destruct H as [Hc Hs].
  rewrite (Hfg c Hc), IH by assumption. reflexivity.
Qed.

Lemma lstrip_length (s : string) :
  (String.length (PyStr.lstrip s) <= String.length s)%nat.
Proof.
  induction s as [|c s IH]; simpl; [lia|].
  destruct (PyStr.is_space c); simpl; lia.
Qed.

(** A string is its own [lstrip] when it does not start with whitespace. *)
Lemma lstrip_fixed (c : ascii) (s : string) :
  PyStr.lstrip (String c s) = String c s <-> PyStr.is_space c = false.
Proof.
  simpl. destruct (PyStr.is_space c); split; try reflexivity; try discriminate.
  intros H. pose proof (lstrip_length s) as L. rewrite H in L. simpl in L. lia.
Qed.

Lemma lstrip_rstrip (s : string) :
  PyStr.lstrip s = s -> PyStr.lstrip (PyStr.rstrip s) = PyStr.rstrip s.
Proof.
  destruct s as [|c s]; [reflexivity|].
  intros H. apply lstrip_fixed in H. cbn [PyStr.rstrip].
  destruct (PyStr.rstrip s); [rewrite H|]; apply lstrip_fixed; exact H.
Qed.

Lemma lstrip_idem (s : string) :
  PyStr.lstrip (PyStr.lstrip s) = PyStr.lstrip s.
Proof.
  induction s as [|c s IH]; [reflexivity|]. simpl.
  destruct (PyStr.is_space c) eqn:E; [exact IH|].
  apply lstrip_fixed. exact E.
Qed.

Lemma rstrip_idem (s : string) :
  PyStr.rstrip (PyStr.rstrip s) = PyStr.rstrip s.
Proof.
  induction s as [|c s IH]; [reflexivity|]. cbn [PyStr.rstrip].
  destruct (PyStr.rstrip s) as [|y r] eqn:E.
  - destruct (PyStr.is_space c) eqn:Ec; [reflexivity|].
    simpl. rewrite Ec. reflexivity.
  - cbn [PyStr.rstrip] in *. rewrite IH. reflexivity.
Qed.

Lemma rstrip_app (a b : string) :
  b <> "" -> PyStr.rstrip b = b ->
  PyStr.rstrip (a ++ b) = (a ++ b)%string.
Proof.
  intros Hb Hr. induction a as [|x a IH]; [exact Hr|].
  cbn [append PyStr.rstrip]. rewrite IH.
  destruct (a ++ b)%string eqn:E; [|reflexivity].
  destruct a; [simpl in E; contradiction | discriminate].
Qed.

Lemma subst_char_nonempty (c : ascii) (t s : string) :
  t <> "" -> s <> "" -> PyStr.subst_char c t s <> "".
Proof.
  intros Ht Hs. destruct s as [|x s]; [contradiction|]. simpl.
  destruct (Ascii.eqb x c); [|discriminate].
  destruct t; [contradiction | discriminate].
Qed.

Lemma lstrip_subst (c : ascii) (t s : string) :
  PyStr.lstrip t = t -> t <> "" -> PyStr.lstrip s = s ->
  PyStr.lstrip (PyStr.subst_char c t s) = PyStr.subst_char c t s.
Proof.
  intros Ht Hne Hs. destruct s as [|x s]; [reflexivity|].
  apply lstrip_fixed in Hs. cbn [PyStr.subst_char].
  destruct (Ascii.eqb x c).
  - destruct t as [|y t]; [contradiction|].
    apply lstrip_fixed in Ht. cbn [append]. apply lstrip_fixed. exact Ht.
  - apply lstrip_fixed. exact Hs.
Qed.

Lemma append_empty (s : string) : (s ++ "")%string = s.
Proof. induction s as [|c s IH]; simpl; [|rewrite IH]; reflexivity. Qed.

Lemma rstrip_subst (c : ascii) (t s : string) :
  PyStr.rstrip t = t -> t <> "" -> PyStr.rstrip s = s ->
  PyStr.rstrip (PyStr.subst_char c t s) = PyStr.subst_char c t s.
Proof.
  intros Ht Hne. induction s as [|x s IH]; [reflexivity|].
  cbn [PyStr.rstrip PyStr.subst_char]. intros Hs.
  destruct (PyStr.rstrip s) as [|y r] eqn:E.
  - destruct (PyStr.is_space x) eqn:Ex; [discriminate|].
    injection Hs as <-. cbn [PyStr.subst_char].
    destruct (Ascii.eqb x c).
    + rewrite append_empty. exact Ht.
    + simpl. rewrite Ex. reflexivity.
  - injection Hs as Hs. specialize (IH Hs).
    assert (PyStr.subst_char c t s <> "") as Hn
      by (apply subst_char_nonempty; [exact Hne | rewrite <- Hs; discriminate]).
    destruct (Ascii.eqb x c).
    + apply rstrip_app; assumption.
    + cbn [PyStr.rstrip]. rewrite IH.
      destruct (PyStr.subst_char c t s); [contradiction | reflexivity].
Qed.

(** X2. Deriving a slug from a derived slug changes nothing. *)
Theorem derive_slug_idempotent (t : string) :
  derive_slug (derive_slug t) = derive_slug t.
Proof.
  pose proof (derived_slug_chars t) as Hc.
  assert (PyStr.lstrip (derive_slug t) = derive_slug t
          /\ PyStr.rstrip (derive_slug t) = derive_slug t) as [Hl Hr].
  { unfold derive_slug. rewrite !replace_char. split.
    - apply lstrip_subst; [reflexivity | discriminate |].
      apply lstrip_subst; [reflexivity | discriminate |].
      apply lstrip_rstrip, lstrip_idem.
    - apply rstrip_subst; [reflexivity | discriminate |].
      apply rstrip_subst; [reflexivity | discriminate |].
      apply rstrip_idem. }
  unfold derive_slug at 1. rewrite !replace_char.
  rewrite lower_fixed.
  - unfold PyStr.strip. rewrite Hl, Hr.
    rewrite (subst_char_absent " "), (subst_char_absent "&"); [reflexivity| |].
    + revert Hc. apply all_chars_weaken. intros x. unfold slug_char.
      destruct (Ascii.eqb x "&"); [rewrite andb_false_r|]; auto.
    + revert Hc. apply all_chars_weaken. intros x. unfold slug_char.
      destruct (Ascii.eqb x " "); auto.
  - revert Hc. apply all_chars_weaken. intros x. unfold slug_char.
    destruct (Ascii.eqb (PyStr.lower_char x) x);
      [reflexivity | rewrite andb_false_r; auto].
Qed.

Lemma lstrip_empty_iff (s : string) :
  PyStr.lstrip s = "" <-> all_chars PyStr.is_space s = true.
Proof.
  induction s as [|c s IH]; simpl; [tauto|].
  destruct (PyStr.is_space c); simpl; [exact IH|].
  split; discriminate.
Qed.

Lemma rstrip_empty_of_fixed (s : string) :
  PyStr.lstrip s = s -> PyStr.rstrip s = "" -> s = "".
Proof.
  destruct s as [|c s]; [reflexivity|].
  intros H. apply lstrip_fixed in H. cbn [PyStr.rstrip].
  destruct (PyStr.rstrip s); [rewrite H|]; discriminate.
Qed.

Lemma all_chars_space_lower (t : string) :
  all_chars PyStr.is_space (PyStr.lower t) = all_chars PyStr.is_space t.
Proof.
  induction t as [|c t IH]; simpl; [reflexivity|].
  rewrite is_space_lower_char, IH. reflexivity.
Qed.

(** When a derived slug is empty. *)
Lemma derived_slug_empty (t : string) :
  derive_slug t = "" <-> all_chars PyStr.is_space t = true.
Proof.
  unfold derive_slug. rewrite !replace_char.
  rewrite <- all_chars_space_lower, <- lstrip_empty_iff.
  split.
  - intros H.
    destruct (PyStr.strip (PyStr.lower t)) as [|c s] eqn:E.
    + unfold PyStr.strip in E.
      apply (rstrip_empty_of_fixed _ (lstrip_idem _) E).
    + exfalso. revert H. apply subst_char_nonempty; [discriminate|].
      apply subst_char_nonempty; discriminate.
  - intros H. unfold PyStr.strip. rewrite H. reflexivity.
Qed.

(** X3. The derived slug is the empty string exactly when the title is
    made of whitespace only (the empty title included). *)
Theorem derive_slug_empty_iff (t : string) :
  derive_slug t = "" <-> all_chars PyStr.is_space t = true.
Proof.
  unfold derive_slug. rewrite !replace_char.
  rewrite <- all_chars_space_lower, <- lstrip_empty_iff.
  split.
  - intros H.
    destruct (PyStr.strip (PyStr.lower t)) as [|c s] eqn:E.
    + unfold PyStr.strip in E.
      apply (rstrip_empty_of_fixed _ (lstrip_idem _) E).
    + exfalso. revert H. apply subst_char_nonempty; [discriminate|].
      apply subst_char_nonempty; discriminate.
  - intros H. unfold PyStr.strip. rewrite H. reflexivity.
Qed.

(** ** The input model *)

(** X4. Building a [ProductIn] from the dump of a [ProductIn] gives the same
    input back: the dump carries every field. *)
Theorem ProductIn_init_model_dump (p : ProductIn) :
  ProductIn_init (model_dump p) = Return p.
Proof.
  destruct p as [t de pr ca st sk im fe sl br].
  unfold ProductIn_init, ProductIn_with, Pydantic.field.
  cbn [model_dump lookup String.eqb Ascii.eqb Bool.eqb title
       description price category in_stock sku images features slug brand].
  cbn [Pydantic.as_str Pydantic.as_float Pydantic.as_bool].
  assert (Hs : forall o : option string,
             Pydantic.as_optional Pydantic.as_str (Pydantic.dump_opt_str o)
             = Some o) by (intros [x|]; reflexivity).
  assert (Hl : forall o : option (list string),
             Pydantic.as_optional Pydantic.as_list_str (Pydantic.dump_opt_strs o)
             = Some o).
  { intros [l|]; [|reflexivity]. simpl. rewrite as_strs_map. reflexivity. }
  rewrite !Hs, !Hl. reflexivity.
Qed.

(** X5. An input without [title], [price] or [category] is rejected with a
    [ValidationError], and each of the three that is missing is listed. *)
Theorem ProductIn_required (kw : dict) :
  lookup "title" kw = None \/ lookup "price" kw = None
  \/ lookup "category" kw = None ->
  exists fields,
    ProductIn_init kw = Raise (ValidationError fields)
    /\ (lookup "title" kw = None -> In "title" fields)
    /\ (lookup "price" kw = None -> In "price" fields)
    /\ (lookup "category" kw = None -> In "category" fields).
Proof.
  intros Hmiss. unfold ProductIn_init, ProductIn_with.
  match goal with
  | |- context [match ?L with [] => _ | _ :: _ => _ end] => set (errs := L)
  end.
  assert ((lookup "title" kw = None -> In "title" errs)
          /\ (lookup "price" kw = None -> In "price" errs)
          /\ (lookup "category" kw = None -> In "category" errs)) as H.
  { subst errs. unfold Pydantic.field. repeat split; intros ->;
      cbn [Pydantic.offending]; repeat (apply in_or_app; first [left; now left | right]). }
  clearbody errs. destruct errs as [|e errs].
  - exfalso. destruct H as [H1 [H2 H3]].
    destruct Hmiss as [M|[M|M]]; [apply (H1 M) | apply (H2 M) | apply (H3 M)].
  - eexists. split; [reflexivity | exact H].
Qed.

Lemma ProductIn_required_witness :
  exists fields,
    ProductIn_init [("title", VStr "Pitcher"); ("category", VStr "Water")]
    = Raise (ValidationError fields)
    /\ In "price" fields.
Proof.
  destruct (ProductIn_required
              [("title", VStr "Pitcher"); ("category", VStr "Water")])
    as [fields [E [_ [H _]]]].
  - right. left. reflexivity.
  - exists fields. split; [exact E | exact (H eq_refl)].
Defined.

(** ** More on serialization *)

Lemma stringify_item_idem (py_repr : value -> string) (kv : string * value) :
  stringify_item py_repr (stringify_item py_repr kv) = stringify_item py_repr kv.
Proof. destruct kv as [k v]. destruct v; reflexivity. Qed.

Lemma dict_set_nonempty (d : dict) (k : string) (v : value) :
  dict_set d k v <> [].
Proof.
  destruct d as [|[k0 v0] d]; simpl; [discriminate|].
  destruct (String.eqb k k0); discriminate.
Qed.

(** X6. When the record has distinct keys and a true value under [_id],
    the result has no [_id] key any more and holds the string of that value
    under [id], whatever [id] held before. *)
Theorem serialize_moves_primary_key
  (py_repr : value -> string) (d wire : dict) :
  NoDup (keys d) -> truthy (dict_get d "_id") = true ->
  _serialize py_repr (Some d) = Some wire ->
  lookup "_id" wire = None
  /\ lookup "id" wire = Some (VStr (py_str py_repr (dict_get d "_id"))).
Proof.
  intros Hnd Ht.
  assert (d <> []) as Hne by (intros ->; discriminate).
  rewrite (serialize_nonempty py_repr d Hne), Ht. intros [= <-].
  rewrite !lookup_stringify. split.
  - rewrite lookup_dict_set_other by discriminate.
    rewrite lookup_dict_pop_same by exact Hnd. reflexivity.
  - rewrite lookup_dict_set_same. reflexivity.
Qed.

Lemma serialize_moves_primary_key_witness :
  exists wire,
    _serialize no_repr (Some water_doc) = Some wire
    /\ lookup "_id" wire = None
    /\ lookup "id" wire = Some (VStr "000000000000000000000007").
Proof.
  eexists. split; [reflexivity|].
  apply (serialize_moves_primary_key no_repr water_doc);
    [| reflexivity | reflexivity].
  repeat constructor; simpl; intuition discriminate.
Defined.

(** X7. On a record with distinct keys, serializing the result of a
    serialization changes nothing. *)
Theorem serialize_idempotent (py_repr : value -> string) (d : dict) :
  NoDup (keys d) ->
  _serialize py_repr (_serialize py_repr (Some d)) = _serialize py_repr (Some d).
Proof.
  intros Hnd. destruct d as [|kv d]; [reflexivity|].
  set (d0 := kv :: d) in *.
  assert (d0 <> []) as Hne by discriminate.
  rewrite (serialize_nonempty py_repr d0 Hne).
  destruct (truthy (dict_get d0 "_id")) eqn:Ht; cbv iota.
  - set (d1 := dict_set (dict_pop d0 "_id") "id"
                 (VStr (py_str py_repr (dict_get d0 "_id")))).
    assert (map (stringify_item py_repr) d1 <> []) as Hn1.
    { pose proof (dict_set_nonempty (dict_pop d0 "_id") "id"
                    (VStr (py_str py_repr (dict_get d0 "_id")))) as Hs.
      fold d1 in Hs. destruct d1; [contradiction | discriminate]. }
    etransitivity; [apply serialize_nonempty; exact Hn1|].
    assert (dict_get (map (stringify_item py_repr) d1) "_id" = VNone) as Hg.
    { unfold dict_get. rewrite lookup_stringify. subst d1.
      rewrite lookup_dict_set_other by discriminate.
      rewrite lookup_dict_pop_same by exact Hnd. reflexivity. }
    rewrite Hg. cbn [truthy]. rewrite map_map.
    f_equal. apply map_ext. intros a. apply stringify_item_idem.
  - assert (map (stringify_item py_repr) d0 <> []) as Hn1 by discriminate.
    etransitivity; [apply serialize_nonempty; exact Hn1|].
    assert (dict_get (map (stringify_item py_repr) d0) "_id"
            = dict_get d0 "_id") as Hg.
    { unfold dict_get in *. rewrite lookup_stringify.
      destruct (lookup "_id" d0) as [[]|]; try reflexivity. discriminate. }
    rewrite Hg, Ht, map_map.
    f_equal. apply map_ext. intros a. apply stringify_item_idem.
Qed.

Lemma serialize_idempotent_witness :
  _serialize no_repr (_serialize no_repr (Some kit_doc))
  = _serialize no_repr (Some kit_doc).
Proof.
  apply (serialize_idempotent no_repr kit_doc).
  repeat constructor; simpl; intuition discriminate.
Defined.

Lemma keys_stringify (py_repr : value -> string) (d : dict) :
  keys (map (stringify_item py_repr) d) = keys d.
Proof.
  unfold keys. rewrite map_map. apply map_ext.
  intros [k v]. destruct v; reflexivity.
Qed.

(** X8. A record whose [_id] is missing or has a false value (null, zero,
    the empty string) gets no [id]: its keys stay as they are, in the same
    order, [_id] included. *)
Theorem serialize_falsy_primary_key (py_repr : value -> string) (d : dict) :
  d <> [] -> truthy (dict_get d "_id") = false ->
  exists wire,
    _serialize py_repr (Some d) = Some wire
    /\ keys wire = keys d
    /\ lookup "_id" wire = lookup "_id" d.
Proof.
  intros Hne Ht. rewrite (serialize_nonempty py_repr d Hne), Ht.
  eexists. split; [reflexivity|]. split; [apply keys_stringify|].
  rewrite lookup_stringify. unfold dict_get in Ht.
  destruct (lookup "_id" d) as [[]|]; try reflexivity. discriminate.
Qed.

Lemma serialize_falsy_primary_key_witness :
  exists wire,
    _serialize no_repr (Some [("_id", VStr ""); ("title", VStr "Pitcher")])
    = Some wire
    /\ keys wire = ["_id"; "title"]
    /\ lookup "_id" wire = Some (VStr "").
Proof.
  apply (serialize_falsy_primary_key no_repr
           [("_id", VStr ""); ("title", VStr "Pitcher")]);
    [discriminate | reflexivity].
Defined.

(** X9. No value directly under a key of a serialized record is an
    [ObjectId]. *)
Theorem serialize_top_level_strings
  (py_repr : value -> string) (d wire : dict) :
  _serialize py_repr (Some d) = Some wire ->
  Forall (fun kv => forall o, snd kv <> VOid o) wire.
Proof.
  destruct d as [|kv d]; [intros [= <-]; constructor|].
  rewrite serialize_nonempty by discriminate. intros [= <-].
  apply Forall_forall. intros [k v] Hin.
  apply in_map_iff in Hin. destruct Hin as [[k0 v0] [E _]].
  unfold stringify_item in E. cbn [snd fst] in *.
  destruct v0; injection E as _ <-; discriminate.
Qed.

Lemma serialize_top_level_strings_witness :
  exists wire,
    _serialize no_repr (Some kit_doc) = Some wire
    /\ Forall (fun kv => forall o, snd kv <> VOid o) wire.
Proof.
  eexists. split; [reflexivity|].
  apply (serialize_top_level_strings no_repr kit_doc). reflexivity.
Defined.

(** ** The handlers as a whole *)

Lemma find_one_raises (name : string) (filt : dict) (w w' : world) (e : exn) :
  PyMongo.find_one name filt w = (Raise e, w') ->
  is_HTTPException e = false /\ db w' = db w /\ next_oid w' = next_oid w.
Proof.
  unfold PyMongo.find_one, bind, PyMongo.getitem, PyMongo.round_trip.
  destruct (db w) as [d|] eqn:Hdb.
  - destruct (faults w) as [|[m|] fs]; unfold ret; cbn; try discriminate.
    intros [= <- <-]. cbn. auto.
  - intros [= <- <-]. auto.
Qed.

Lemma find_one_returns (name : string) (filt : dict) (w w' : world)
  (r : option dict) :
  PyMongo.find_one name filt w = (Return r, w') ->
  db w' = db w /\ next_oid w' = next_oid w.
Proof.
  unfold PyMongo.find_one, bind, PyMongo.getitem, PyMongo.round_trip.
  destruct (db w) as [d|] eqn:Hdb; [|discriminate].
  destruct (faults w) as [|[m|] fs]; unfold ret; cbn; try discriminate;
    intros [= _ <-]; cbn; auto.
Qed.

(** X10. Whatever the state, [list_products] and [create_product] raise
    nothing but an [HTTPException] with status 500, and [get_product]
    nothing but the 404 "Product not found" or an [HTTPException] with
    status 500. *)
Theorem handlers_raise_only_http (py_repr : value -> string) (w : world) :
  (forall limit category e,
      fst (list_products py_repr limit category w) = Raise e ->
      exists dt, e = HTTPException 500 dt)
  /\ (forall p e,
        fst (create_product py_repr p w) = Raise e ->
        exists dt, e = HTTPException 500 dt)
  /\ (forall slug e,
        fst (get_product py_repr slug w) = Raise e ->
        e = HTTPException 404 (Text "Product not found")
        \/ exists dt, e = HTTPException 500 dt).
Proof.
  split; [|split].
  - intros limit category e. unfold list_products, try_except.
    match goal with |- context [match ?c w with _ => _ end] =>
      destruct (c w) as [[a|e'] w'] end; cbn; [discriminate|].
    intros [= <-]. eauto.
  - intros p e. unfold create_product, try_except.
    match goal with |- context [match ?c w with _ => _ end] =>
      destruct (c w) as [[a|e'] w'] end; cbn; [discriminate|].
    intros [= <-]. eauto.
  - intros slug e. unfold get_product, try_except, bind.
    destruct (PyMongo.find_one "product" [("slug", VStr slug)] w)
      as [[doc|e'] w'] eqn:E.
    + destruct (negb (doc_truthy doc)); cbn; [|discriminate].
      intros [= <-]. now left.
    + apply find_one_raises in E. destruct E as [E _]. rewrite E. cbn.
      intros [= <-]. right. eauto.
Qed.

Lemma handlers_raise_only_http_witness :
  exists dt,
    HTTPException 500 (StrOf StoreUnavailable) = HTTPException 500 dt.
Proof.
  apply (proj1 (proj2 (handlers_raise_only_http no_repr (mkWorld None [] 0)))
           (air_pro_with_slug None)).
  reflexivity.
Defined.

Lemma get_documents_keeps (name : string) (filt : dict) (limit : option Z)
  (w : world) :
  db (snd (Database.get_documents name filt limit w)) = db w
  /\ next_oid (snd (Database.get_documents name filt limit w)) = next_oid w.
Proof.
  unfold Database.get_documents.
  destruct (db w) as [d|] eqn:Hdb; [|cbn; auto].
  unfold try_except, Database.find, bind, PyMongo.getitem,
    PyMongo.round_trip.
  rewrite Hdb.
  destruct (faults w) as [|[m|] fs]; unfold ret, raise; cbn; auto.
Qed.

(** X11. The two reading handlers never write: after [list_products] and
    after [get_product], whether they return or raise, the database and the
    identifier counter are what they were. *)
Theorem readers_keep_store (py_repr : value -> string) (w : world) :
  (forall limit category,
      db (snd (list_products py_repr limit category w)) = db w
      /\ next_oid (snd (list_products py_repr limit category w)) = next_oid w)
  /\ (forall slug,
        db (snd (get_product py_repr slug w)) = db w
        /\ next_oid (snd (get_product py_repr slug w)) = next_oid w).
Proof.
  split.
  - intros limit category. unfold list_products, try_except, bind.
    match goal with |- context [Database.get_documents ?n ?f ?l w] =>
      pose proof (get_documents_keeps n f l w) as K;
      destruct (Database.get_documents n f l w) as [[docs|e] w'] end;
      exact K.
  - intros slug. unfold get_product, try_except, bind.
    destruct (PyMongo.find_one "product" [("slug", VStr slug)] w)
      as [[doc|e] w'] eqn:E.
    + apply find_one_returns in E.
      destruct (negb (doc_truthy doc)); exact E.
    + apply find_one_raises in E. destruct E as [E K]. rewrite E. exact K.
Qed.

Lemma filter_none {A} (f : A -> bool) (l : list A) :
  (forall x, In x l -> f x = false) -> filter f l = [].
Proof.
  induction l as [|x l IH]; simpl; [reflexivity|].
  intros H. rewrite (H x) by now left. apply IH. intros y Hy. apply H. now right.
Qed.

(** The first match in a collection whose last record is the only match. *)
Lemma hd_filter_last {A} (f : A -> bool) (l : list A) (x : A) :
  (forall y, In y l -> f y = false) -> f x = true ->
  hd_error (filter f (l ++ [x])) = Some x.
Proof.
  intros Hl Hx. rewrite filter_app, (filter_none f l Hl). simpl.
  rewrite Hx. reflexivity.
Qed.

(** [create_product] on an accepted input, a working store and a fresh
    identifier that no stored record holds. *)
Lemma create_product_eval
  (py_repr : value -> string) (p : ProductIn) (w : world) (d : database)
  (s : string) :
  offending_fields p = [] -> db w = Some d -> faults w = [] ->
  s = match slug p with
      | Some x => if String.eqb x "" then derive_slug (title p) else x
      | None => derive_slug (title p)
      end ->
  (forall doc, In doc (d "product") ->
     ~ field_holds "_id" (VOid (Bson.generate (next_oid w))) doc) ->
  let doc := ("_id", VOid (Bson.generate (next_oid w)))
             :: Schemas.model_dump (as_product p (Some s)) in
  create_product py_repr p w
  = (Return (_serialize py_repr (Some doc)),
     mkWorld (Some (PyMongo.set_collection d "product" (d "product" ++ [doc])))
             [] (N.succ (next_oid w))).
Proof.
  intros Hok Hdb Hf Hs Hfresh doc.
  destruct (ensure_slug_cases p) as [s' [He Hs']].
  assert (s' = Some s) as ->.
  { subst. destruct (slug p) as [y|]; [destruct (String.eqb y "")|];
      reflexivity. }
  unfold create_product, try_except, bind. rewrite He. unfold ret, lift.
  rewrite schema_on_dump, Hok, (create_document_ok _ w d Hdb Hf).
  unfold PyMongo.getitem at 1. cbn [db].
  rewrite parse_generated.
  unfold PyMongo.find_one, PyMongo.getitem, PyMongo.round_trip, bind, ret.
  cbn [db faults]. rewrite set_collection_same.
  fold doc.
  rewrite (hd_filter_last _ (d "product") doc); [reflexivity | |].
  - intros y Hy.
    destruct (mongo_matches [("_id", VOid (Bson.generate (next_oid w)))] y)
      eqn:E; [|reflexivity].
    apply mongo_matches_oid in E. now elim (Hfresh y Hy).
  - apply mongo_matches_oid. left. reflexivity.
Qed.

(** X12. Create, then fetch by slug.  For an accepted input, a working
    store, a fresh identifier that no stored record holds and a slug
    (supplied or derived) that no stored record holds either, as its slug or
    inside an array of slugs, [create_product] returns a record and
    [get_product] on that slug then returns the same record; its [id] is
    the string of the new identifier and its title, price, category and
    slug are those of the input. *)
Theorem create_then_get
  (py_repr : value -> string) (p : ProductIn) (w : world) (d : database)
  (s : string) :
  offending_fields p = [] -> db w = Some d -> faults w = [] ->
  s = match slug p with
      | Some x => if String.eqb x "" then derive_slug (title p) else x
      | None => derive_slug (title p)
      end ->
  (forall doc, In doc (d "product") ->
     ~ field_holds "_id" (VOid (Bson.generate (next_oid w))) doc) ->
  (forall doc, In doc (d "product") -> ~ field_holds "slug" (VStr s) doc) ->
  exists wire,
    fst (create_product py_repr p w) = Return (Some wire)
    /\ fst (get_product py_repr s (snd (create_product py_repr p w)))
       = Return (Some wire)
    /\ lookup "id" wire
       = Some (VStr (Bson.to_str (Bson.generate (next_oid w))))
    /\ lookup "title" wire = Some (VStr (title p))
    /\ lookup "price" wire = Some (VNum (price p))
    /\ lookup "category" wire = Some (VStr (category p))
    /\ lookup "slug" wire = Some (VStr s).
Proof.
  intros Hok Hdb Hf Hs Hfresh Hslug.
  rewrite (create_product_eval py_repr p w d s Hok Hdb Hf Hs Hfresh).
  cbn [fst snd].
  set (doc := ("_id", VOid (Bson.generate (next_oid w)))
              :: Schemas.model_dump (as_product p (Some s))).
  destruct (serialize_record py_repr doc (Bson.generate (next_oid w)) eq_refl)
    as [wire [Hw [Hid Hk]]].
  exists wire. split; [f_equal; exact Hw|]. split.
  - match goal with
    | |- context [get_product py_repr s (mkWorld (Some ?d1) ?fs ?n)] =>
        rewrite (get_product_eval py_repr s (mkWorld (Some d1) fs n) d1
                   eq_refl eq_refl)
    end.
    rewrite set_collection_same.
    rewrite (hd_filter_last _ (d "product") doc); [f_equal; exact Hw | |].
    + intros y Hy.
      destruct (mongo_matches [("slug", VStr s)] y) eqn:E; [|reflexivity].
      apply mongo_matches_str in E. now elim (Hslug y Hy).
    + apply mongo_matches_str. left. reflexivity.
  - split; [exact Hid|].
    repeat split; rewrite Hk by discriminate; reflexivity.
Qed.

Lemma create_then_get_witness :
  exists wire,
    fst (create_product no_repr (air_pro_with_slug None)
           (world_with [water_doc; bundle_doc]))
    = Return (Some wire)
    /\ fst (get_product no_repr "air-and-surface-pro"
              (snd (create_product no_repr (air_pro_with_slug None)
                      (world_with [water_doc; bundle_doc]))))
       = Return (Some wire)
    /\ lookup "id" wire = Some (VStr "000000000000000000000000")
    /\ lookup "slug" wire = Some (VStr "air-and-surface-pro").
Proof.
  destruct (create_then_get no_repr (air_pro_with_slug None)
              (world_with [water_doc; bundle_doc])
              (fun name => if String.eqb name "product"
                           then [water_doc; bundle_doc] else [])
              "air-and-surface-pro" eq_refl eq_refl eq_refl eq_refl)
    as [wire [H1 [H2 [H3 [_ [_ [_ H4]]]]]]].
  - intros doc [<-|[<-|[]]] [H|[l [H _]]]; discriminate.
  - intros doc [<-|[<-|[]]] [H|[l [H Hin]]]; try discriminate.
    injection H as <-. destruct Hin as [Hin|[Hin|[]]]; discriminate.
  - exists wire. repeat split; assumption.
Defined.

(** ** More on seeding *)

Lemma seed_nonempty (w : world) :
  products w <> [] -> db (snd (seed_products w)) = db w.
Proof.
  unfold products. destruct (db w) as [d|] eqn:Hdb; [|intros H; now elim H].
  intros Hne.
  unfold seed_products, try_except, seed_body. rewrite Hdb.
  unfold PyMongo.count_documents, bind, PyMongo.getitem, PyMongo.round_trip.
  rewrite Hdb, (filter_all _ _ mongo_matches_nil).
  destruct (d "product") as [|doc docs] eqn:Hp; [now elim Hne|].
  destruct (faults w) as [|[m|] fs]; unfold ret; cbn; try reflexivity;
    exact Hdb.
Qed.

(** One turn of the seeding loop when the write succeeds ... *)
Lemma seed_turn_ok (s : ProductIn) (x : string) (d : database)
  (fs : list (option string)) (n : N) :
  offending_fields s = [] -> slug s = Some x ->
  exists doc,
    (p <- lift (Schemas.ProductSchema (model_dump s)) ;;
     Database.create_document "product" p ;;;
     ret tt) (mkWorld (Some d) (None :: fs) n)
    = (Return tt,
       mkWorld (Some (PyMongo.set_collection d "product" (d "product" ++ [doc])))
               fs (N.succ n))
    /\ lookup "slug" doc = Some (VStr x).
Proof.
  intros Hok Hs. unfold bind, lift.
  rewrite <- (dump_with_own_slug s), schema_on_dump, Hok.
  eexists. split; [reflexivity|]. rewrite Hs. reflexivity.
Qed.

(** ... and when it fails: nothing is stored and the error goes up. *)
Lemma seed_turn_fails (s : ProductIn) (d : database) (msg : string)
  (fs : list (option string)) (n : N) :
  offending_fields s = [] ->
  (p <- lift (Schemas.ProductSchema (model_dump s)) ;;
   Database.create_document "product" p ;;;
   ret tt) (mkWorld (Some d) (Some msg :: fs) n)
  = (Raise (WriteError msg), mkWorld (Some d) fs n).
Proof.
  intros Hok. unfold bind, lift.
  rewrite <- (dump_with_own_slug s), schema_on_dump, Hok. reflexivity.
Qed.

(** The seeding of an empty collection, up to the loop. *)
Lemma seed_enters_loop (d : database) (fs : list (option string)) (n : N) :
  d "product" = [] ->
  exists s1 s2 s3,
    seed_products (mkWorld (Some d) (None :: fs) n)
    = try_except
        (for_each [s1; s2; s3]
           (fun s =>
              p <- lift (Schemas.ProductSchema (model_dump s)) ;;
              Database.create_document "product" p ;;;
              ret tt))
        (fun _ => ret tt) (mkWorld (Some d) fs n)
    /\ map slug [s1; s2; s3]
       = [Some "air-and-surface-pro"; Some "freshair-personal";
          Some "living-water"]
    /\ map offending_fields [s1; s2; s3] = [[]; []; []].
Proof.
  intros Hp.
  destruct (samples_built (mkWorld (Some d) fs n)) as [s1 [s2 [s3 [Hb H]]]].
  exists s1, s2, s3. split; [|exact H].
  unfold seed_products, try_except, seed_body. cbn [db].
  unfold PyMongo.count_documents, bind at 1 2 3, PyMongo.getitem,
    PyMongo.round_trip.
  cbn [db faults next_oid]. rewrite (filter_all _ _ mongo_matches_nil), Hp.
  unfold ret at 1. cbn [List.length N.of_nat N.eqb].
  unfold bind at 1. rewrite Hb. reflexivity.
Qed.

(** X13. Seeding is not all-or-nothing: when the collection is empty and
    the store fails on the second insert, the first sample stays as the only
    record, the routine still returns normally, and a second run adds
    nothing, since the collection is no longer empty. *)
Theorem seed_products_partial
  (d : database) (msg : string) (fs : list (option string)) (n : N) :
  d "product" = [] ->
  let w := mkWorld (Some d) (None :: None :: Some msg :: fs) n in
  fst (seed_products w) = Return tt
  /\ map (lookup "slug") (products (snd (seed_products w)))
     = [Some (VStr "air-and-surface-pro")]
  /\ db (snd (seed_products (snd (seed_products w))))
     = db (snd (seed_products w)).
Proof.
  intros Hp w.
  assert (exists d1,
             seed_products w
             = (Return tt,
                mkWorld (Some (PyMongo.set_collection d "product"
                                 (d "product" ++ [d1])))
                        fs (N.succ n))
             /\ lookup "slug" d1 = Some (VStr "air-and-surface-pro"))
    as [d1 [E L1]].
  { subst w.
    destruct (seed_enters_loop d (None :: Some msg :: fs) n Hp)
      as [s1 [s2 [s3 [E [Hs Ho]]]]].
    injection Hs as Hs1 Hs2 Hs3. injection Ho as Ho1 Ho2 Ho3.
    destruct (seed_turn_ok s1 _ d (Some msg :: fs) n Ho1 Hs1) as [d1 [E1 L1]].
    exists d1. split; [|exact L1].
    rewrite E. unfold try_except. cbn [for_each]. unfold bind at 1.
    rewrite E1. unfold bind at 1.
    rewrite (seed_turn_fails s2 _ msg fs (N.succ n) Ho2). reflexivity. }
  assert (products (snd (seed_products w)) = [d1]) as Hprod.
  { rewrite E. unfold products. cbn [snd db].
    rewrite set_collection_same, Hp. reflexivity. }
  split; [rewrite E; reflexivity|]. split.
  - rewrite Hprod. cbn [map]. rewrite L1. reflexivity.
  - apply seed_nonempty. rewrite Hprod. discriminate.
Qed.

Lemma seed_products_partial_witness :
  map (lookup "slug")
    (products
       (snd (seed_products
               (mkWorld (Some (fun _ => []))
                        [None; None; Some "connection reset"] 0))))
  = [Some (VStr "air-and-surface-pro")].
Proof.
  apply (proj1 (proj2 (seed_products_partial (fun _ => []) "connection reset"
                         [] 0 eq_refl))).
Defined.

(** X14. On a store without faults, seeding a second time changes nothing:
    the database after two runs is the database after one. *)
Theorem seed_products_twice (w : world) :
  faults w = [] ->
  db (snd (seed_products (snd (seed_products w)))) = db (snd (seed_products w)).
Proof.
  intros Hf.
  destruct (db w) as [d|] eqn:Hdb.
  - destruct (d "product") as [|doc docs] eqn:Hp.
    + apply seed_nonempty.
      destruct w as [dbw fs n]. cbn [db faults] in *. subst dbw fs.
      destruct (samples_built (mkWorld (Some d) [] n)) as
        [s1 [s2 [s3 [Hb [Hs Ho]]]]].
      injection Hs as Hs1 Hs2 Hs3. injection Ho as Ho1 Ho2 Ho3.
      destruct (seed_step s1 _ (mkWorld (Some d) [] n) d Ho1 Hs1
                  eq_refl eq_refl) as [d1 [E1 L1]].
      destruct (seed_step s2 _
                  (mkWorld (Some (PyMongo.set_collection d "product"
                                    (d "product" ++ [d1]))) [] (N.succ n))
                  _ Ho2 Hs2 eq_refl eq_refl) as [d2 [E2 L2]].
      destruct (seed_step s3 _
                  (mkWorld
                     (Some (PyMongo.set_collection
                              (PyMongo.set_collection d "product"
                                 (d "product" ++ [d1]))
                              "product"
                              (PyMongo.set_collection d "product"
                                 (d "product" ++ [d1]) "product" ++ [d2])))
                     [] (N.succ (N.succ n)))
                  _ Ho3 Hs3 eq_refl eq_refl) as [d3 [E3 L3]].
      cbn [next_oid] in E1, E2, E3.
      unfold seed_products, try_except, seed_body. cbn [db].
      unfold PyMongo.count_documents, bind at 1 2 3, PyMongo.getitem,
        PyMongo.round_trip.
      cbn [db faults]. rewrite (filter_all _ _ mongo_matches_nil), Hp.
      unfold ret at 1. cbn [List.length N.of_nat N.eqb].
      unfold bind at 1. rewrite Hb. cbn [for_each].
      unfold bind at 1. rewrite E1.
      unfold bind at 1. rewrite E2.
      unfold bind at 1. rewrite E3.
      unfold ret, products. cbn [snd db].
      rewrite !set_collection_same, Hp. discriminate.
    + assert (products w <> []) as Hne
        by (unfold products; rewrite Hdb, Hp; discriminate).
      pose proof (seed_nonempty w Hne) as K.
      apply seed_nonempty. unfold products in *. rewrite K. exact Hne.
  - assert (seed_products w = (Return tt, w)) as E.
    { unfold seed_products, try_except, seed_body. rewrite Hdb. reflexivity. }
    rewrite E. cbn [snd]. rewrite E. reflexivity.
Qed.

Lemma seed_products_twice_witness :
  db (snd (seed_products (snd (seed_products (world_with [])))))
  = db (snd (seed_products (world_with []))).
Proof. apply (seed_products_twice (world_with [])). reflexivity. Defined.

(** ** The diagnostic endpoint *)

Lemma substring_prefix_length (n : nat) (s : string) :
  (String.length (substring 0 n s) <= n)%nat
  /\ ((String.length s <= n)%nat -> substring 0 n s = s).
Proof.
  revert s. induction n as [|n IH]; intros s.
  - destruct s as [|c s]; simpl; split; auto; intros H; lia.
  - destruct s as [|c s]; simpl; split; auto; try lia.
    + destruct (IH s). lia.
    + intros H. destruct (IH s) as [_ K]. rewrite K by lia. reflexivity.
Qed.

Lemma substring_prefix (n : nat) (s : string) :
  prefix (substring 0 n s) s = true.
Proof.
  revert s. induction n as [|n IH]; intros [|c s]; simpl; try reflexivity.
  destruct (Ascii.ascii_dec c c); [apply IH | contradiction].
Qed.

(** X15. In the diagnostic response, [database_url] and [database_name]
    tell only whether the environment variable is set to a non-empty value;
    they do not depend on [db], whose name is never reported. *)
Theorem test_database_env_fields
  (dbo : option db_handle) (env : string -> option string) (k var : string) :
  (k, var) = ("database_url", "DATABASE_URL")
  \/ (k, var) = ("database_name", "DATABASE_NAME") ->
  (forall v, env var = Some v -> v <> "" ->
             lookup k (test_database dbo env) = Some (VStr "✅ Set"))
  /\ (env var = None \/ env var = Some "" ->
      lookup k (test_database dbo env) = Some (VStr "❌ Not Set")).
Proof.
  intros Hk. split.
  - intros v Hv Hne.
    assert (getenv_set env var = true) as G.
    { unfold getenv_set. rewrite Hv. apply truthy_VStr, Hne. }
    destruct Hk as [[= -> ->]|[= -> ->]]; unfold test_database; rewrite G;
      destruct dbo as [[nm [l|msg]]|];
      destruct (getenv_set env "DATABASE_URL");
      destruct (getenv_set env "DATABASE_NAME");
      try discriminate G; reflexivity.
  - intros Hv.
    assert (getenv_set env var = false) as G.
    { unfold getenv_set. destruct Hv as [-> | ->]; reflexivity. }
    destruct Hk as [[= -> ->]|[= -> ->]]; unfold test_database; rewrite G;
      destruct dbo as [[nm [l|msg]]|];
      destruct (getenv_set env "DATABASE_URL");
      destruct (getenv_set env "DATABASE_NAME");
      try discriminate G; reflexivity.
Qed.

Lemma test_database_env_fields_witness :
  lookup "database_name"
    (test_database (Some (mkHandle (Some "catalog") (inl ["product"])))
                   (fun _ => None))
  = Some (VStr "❌ Not Set").
Proof.
  apply (proj2 (test_database_env_fields
                  (Some (mkHandle (Some "catalog") (inl ["product"])))
                  (fun _ => None) "database_name" "DATABASE_NAME"
                  (or_intror eq_refl))).
  left. reflexivity.
Defined.

(** X16. The diagnostic response is bounded: [collections] holds the first
    ten names the driver lists (all of them when there are at most ten), and
    nothing when there is no [db] or the listing fails; and a failed listing
    is reported with at most the first fifty characters of its message. *)
Theorem test_database_bounds
  (dbo : option db_handle) (env : string -> option string) :
  (exists names,
      lookup "collections" (test_database dbo env)
      = Some (VList (map VStr names))
      /\ (List.length names <= 10)%nat
      /\ names = match dbo with
                 | Some h => match handle_listing h with
                             | inl l => firstn 10 l
                             | inr _ => []
                             end
                 | None => []
                 end)
  /\ (forall h msg, dbo = Some h -> handle_listing h = inr msg ->
        exists shown,
          lookup "database" (test_database dbo env)
          = Some (VStr ("⚠️  Connected but Error: " ++ shown))
          /\ (String.length shown <= 50)%nat
          /\ prefix shown msg = true
          /\ ((String.length msg <= 50)%nat -> shown = msg)).
Proof.
  split.
  - eexists. split; [|split; [|reflexivity]].
    + unfold test_database.
      destruct dbo as [[nm [l|msg]]|];
        destruct (getenv_set env "DATABASE_URL");
        destruct (getenv_set env "DATABASE_NAME"); reflexivity.
    + destruct dbo as [[nm [l|msg]]|]; cbn [handle_listing List.length];
        try lia.
      apply firstn_le_length.
  - intros h msg -> Hl. exists (substring 0 50 msg).
    destruct (substring_prefix_length 50 msg) as [H1 H2].
    split; [|split; [exact H1 | split; [|exact H2]]].
    + unfold test_database. rewrite Hl.
      destruct (getenv_set env "DATABASE_URL");
        destruct (getenv_set env "DATABASE_NAME"); reflexivity.
    + apply substring_prefix.
Qed.

Lemma test_database_bounds_witness :
  exists shown,
    lookup "database"
      (test_database (Some (mkHandle None (inr "timed out"))) (fun _ => None))
    = Some (VStr ("⚠️  Connected but Error: " ++ shown))
    /\ shown = "timed out".
Proof.
  destruct (proj2 (test_database_bounds
                     (Some (mkHandle None (inr "timed out"))) (fun _ => None))
              _ "timed out" eq_refl eq_refl) as [shown [H1 [_ [_ H4]]]].
  exists shown. split; [exact H1 | apply H4; simpl; lia].
Defined.

(** X17. The diagnostic response always has the same six keys in the same
    order and reports the backend as running; [connection_status] is
    "Connected" exactly when [db] is not [None]. *)
Theorem test_database_shape
  (dbo : option db_handle) (env : string -> option string) :
  keys (test_database dbo env)
  = ["backend"; "database"; "database_url"; "database_name";
     "connection_status"; "collections"]
  /\ lookup "backend" (test_database dbo env) = Some (VStr "✅ Running")
  /\ (lookup "connection_status" (test_database dbo env)
      = Some (VStr "Connected") <-> dbo <> None)
  /\ (lookup "connection_status" (test_database dbo env)
      = Some (VStr "Not Connected") <-> dbo = None).
Proof.
  unfold test_database.
  destruct dbo as [[nm [l|msg]]|];
    destruct (getenv_set env "DATABASE_URL");
    destruct (getenv_set env "DATABASE_NAME");
    cbn; repeat split; intros; try reflexivity; try discriminate;
    try congruence.
Qed.

(** ** More on the slug *)

Lemma keys_dict_set_present (d : dict) (k : string) (v : value) :
  In k (keys d) -> keys (dict_set d k v) = keys d.
Proof.
  induction d as [|[k0 v0] d IH]; simpl; [tauto|].
  destruct (String.eqb_spec k k0) as [->|Hne]; [reflexivity|].
  intros [H|H]; [congruence|]. simpl. f_equal. apply IH, H.
Qed.

(** X18. On the dump of an input, the "ensure slug" step never raises and
    touches nothing but the slug: the keys and every other field are
    unchanged.  Afterwards the slug is a string, and it is the empty string
    exactly when no non-empty slug was supplied and the title is made of
    whitespace only. *)
Theorem ensure_slug_on_dump (p : ProductIn) (w : world) :
  exists data s,
    ensure_slug (model_dump p) w = (Return data, w)
    /\ lookup "slug" data = Some (VStr s)
    /\ keys data = keys (model_dump p)
    /\ (forall k, k <> "slug" -> lookup k data = lookup k (model_dump p))
    /\ (s = "" <-> (slug p = None \/ slug p = Some "")
                   /\ all_chars PyStr.is_space (title p) = true).
Proof.
  destruct (ensure_slug_cases p) as [s' [He Hs']].
  assert (exists s, s' = Some s) as [s ->].
  { subst s'. destruct (slug p) as [y|]; [destruct (String.eqb y "")|]; eauto. }
  exists (dump_with_slug p (VStr s)), s.
  split; [rewrite He; reflexivity|].
  split; [apply lookup_dict_set_same|].
  split; [apply keys_dict_set_present; simpl; tauto|].
  split; [intros k Hk; apply lookup_dict_set_other; exact Hk|].
  destruct (slug p) as [y|] eqn:Es.
  - destruct (String.eqb_spec y "") as [Hy|Hne]; injection Hs' as Hs'.
    + subst y s. rewrite derived_slug_empty. intuition.
    + subst s. split; [intros Hy; contradiction|].
      intros [[H|H] _]; congruence.
  - injection Hs' as Hs'. subst s. rewrite derived_slug_empty. intuition.
Qed.

Lemma lower_idem (t : string) : PyStr.lower (PyStr.lower t) = PyStr.lower t.
Proof. apply lower_fixed, all_chars_lower. Qed.

Lemma lower_lstrip (t : string) :
  PyStr.lower (PyStr.lstrip t) = PyStr.lstrip (PyStr.lower t).
Proof.
  induction t as [|c t IH]; [reflexivity|]. simpl.
  rewrite is_space_lower_char. destruct (PyStr.is_space c); [exact IH|].
  reflexivity.
Qed.

Lemma lower_rstrip (t : string) :
  PyStr.lower (PyStr.rstrip t) = PyStr.rstrip (PyStr.lower t).
Proof.
  induction t as [|c t IH]; [reflexivity|]. cbn [PyStr.rstrip PyStr.lower].
  rewrite <- IH, is_space_lower_char.
  destruct (PyStr.rstrip t); cbn [PyStr.lower];
    [destruct (PyStr.is_space c)|]; reflexivity.
Qed.

Lemma strip_idem (t : string) : PyStr.strip (PyStr.strip t) = PyStr.strip t.
Proof.
  unfold PyStr.strip.
  rewrite (lstrip_rstrip (PyStr.lstrip t) (lstrip_idem t)).
  apply rstrip_idem.
Qed.

(** X19. The derived slug does not see the case of the title nor the
    whitespace around it: a title, its lower-case form and its stripped form
    all give the same slug. *)
Theorem derive_slug_insensitive (t : string) :
  derive_slug (PyStr.lower t) = derive_slug t
  /\ derive_slug (PyStr.strip t) = derive_slug t.
Proof.
  unfold derive_slug. split.
  - rewrite lower_idem. reflexivity.
  - unfold PyStr.strip at 2.
    rewrite lower_rstrip, lower_lstrip.
    fold (PyStr.strip (PyStr.lower t)). rewrite strip_idem. reflexivity.
Qed.
